(** * SQL generation for the PostgreSQL and MariaDB dialects

    A shallow embedding of
      - packages/core/src/dialects/postgres/query-generator-typescript.ts
        ([PostgresQueryGeneratorTypeScript]),
      - the MariaDB counterpart ([MariaDbQueryGeneratorTypeScript]),
      - the internal query interface ([AbstractQueryInterfaceInternal]),
    followed by the properties of these generators.

    The generators are string builders on top of services they inherit or
    import (value escaping, identifier quoting, table resolution, name
    generation).  Those services are not defined in the embedded files; they
    are the fields of the classes [Utils] and [AbstractQueryGenerator] below
    and every result holds for all of their implementations. *)

From Stdlib Require Import String Ascii List ZArith Bool Arith Lia DecimalString.
Import ListNotations.
Open Scope string_scope.


(** ** JavaScript values, objects and exceptions *)

(** The values that reach the generators: option values, escaped literals,
    query results.  Numbers are the integer-valued ones (array indices). *)
#[warnings="-register-all"]
Inductive jsval : Type :=
| JUndefined
| JNull
| JBool (b : bool)
| JNum (n : Z)
| JStr (s : string)
| JArr (items : list jsval)
| JObj (props : list (string * jsval)).

(** An object literal, as the list of its entries in property order
    (the order of [Object.keys] and [Object.entries]). *)
Definition jsobject (V : Type) : Type := list (string * V).

(** Truthiness, as tested by [if (v)], [v && w] and [v ? a : b]. *)
Definition truthy (v : jsval) : bool :=
  match v with
  | JUndefined | JNull => false
  | JBool b => b
  | JNum n => negb (n =? 0)%Z
  | JStr s => negb (s =? "")
  | JArr _ | JObj _ => true
  end.

(** [v == null]: true of [null] and [undefined] only. *)
Definition isNullish (v : jsval) : bool :=
  match v with
  | JUndefined | JNull => true
  | _ => false
  end.

(** [o.k]: the value stored under [k], [undefined] when the key is absent. *)
Fixpoint getProp (o : jsobject jsval) (k : string) : jsval :=
  match o with
  | [] => JUndefined
  | (k', v) :: rest => if k' =? k then v else getProp rest k
  end.

(** [options?.k] on an optional options object. *)
Definition optProp (options : option (jsobject jsval)) (k : string) : jsval :=
  match options with
  | None => JUndefined
  | Some o => getProp o k
  end.

(** [Object.keys]. *)
Definition keys {V : Type} (o : jsobject V) : list string := map fst o.

(** [Set.prototype.has] on a set of strings given by its members. *)
Definition has (set : list string) (k : string) : bool :=
  existsb (String.eqb k) set.

(** The exceptions thrown by the embedded code. *)
Inductive exn : Type :=
| Error (message : string)
| TypeError (message : string)
| AssertionError.

(** A call either returns a value or throws. *)
Inductive result (A : Type) : Type :=
| Ok (value : A)
| Throw (e : exn).

Arguments Ok {A} value.
Arguments Throw {A} e.

Definition bind {A B : Type} (r : result A) (k : A -> result B) : result B :=
  match r with
  | Ok a => k a
  | Throw e => Throw e
  end.

Notation "x <- r ;; k" := (bind r (fun x => k))
  (at level 61, r at next level, right associativity).

(** [for (const x of xs) { out = body(out, x) }], leaving at the first throw. *)
Fixpoint forOf {A S : Type} (body : S -> A -> result S) (xs : list A) (s : S)
  : result S :=
  match xs with
  | [] => Ok s
  | x :: rest => s' <- body s x ;; forOf body rest s'
  end.

(** ** Data model *)

(** [TableNameWithSchema], as resolved by [extractTableDetails]. *)
Record TableDetails : Type := mkTable {
  tableName : string;
  schema : string
}.

(** [TableNameOrModel]: a bare name, a resolved table, or a model. *)
Inductive TableNameOrModel : Type :=
| TableName (name : string)
| TableObject (table : TableDetails)
| Model (modelName : string).

(** [indexNameOrAttributes: string | string[]]. *)
Inductive IndexNameOrAttributes : Type :=
| IndexName (name : string)
| IndexAttributes (fields : list string).

(** Data type instances.  [ENUM values] stands for [options.values] of an
    enum, [ARRAY t] for [options.type] of an array.  Normalised attributes
    carry the dialect's own classes, so one constructor answers both
    [instanceof DataTypes.ENUM] and [instanceof ENUM]. *)
Inductive DataType : Type :=
| ENUM (values : list string)
| ARRAY (elementType : DataType)
| OtherDataType (key : string).

(** [dataTypeOrName: DataTypeInstance | string]. *)
Inductive DataTypeOrName : Type :=
| ByName (name : string)
| ByDataType (dataType : DataType).

(** A segment of a JSON path: [number | string]. *)
Inductive PathSegment : Type :=
| SegNumber (n : Z)
| SegString (s : string).

Definition segmentValue (p : PathSegment) : jsval :=
  match p with
  | SegNumber n => JNum n
  | SegString s => JStr s
  end.

(** The keys of a normalised column definition that the generator reads.
    [comment = None] when the key is absent ('comment' in columnDef is
    false), [Some None] when it is present with [null] or [undefined]. *)
Record ChangeColumnDefinition : Type := mkColumn {
  type : option DataType;
  comment : option (option string);
  autoIncrement : option bool
}.

(** An attribute as the caller writes it: a bare data type or a definition. *)
Inductive ChangeColumnAttribute : Type :=
| AttrDataType (dataType : DataType)
| AttrDefinition (definition : ChangeColumnDefinition).

Definition ChangeColumnDefinitions : Type := jsobject ChangeColumnAttribute.

(** [mapValues] of lodash: same keys, same order. *)
Definition mapValues {A B : Type} (o : jsobject A) (f : A -> B) : jsobject B :=
  map (fun kv => (fst kv, f (snd kv))) o.

(** ** Imported and inherited services *)

(** Helpers imported from [utils/]. *)
Class Utils : Type := {
  joinSQLFragments : list string -> string;
  generateIndexName : TableDetails -> list string -> string;
  (** [generateEnumName(table, column, { replacement })] *)
  generateEnumName : string -> string -> bool -> string;
  generateSequenceName : string -> string -> string;
  buildJsonPath : list PathSegment -> string;
  (** the text of the error raised for rejected option keys *)
  invalidOptionsMessage : string -> string -> list string -> string;
  (** [String(n)] on a number *)
  numberToString : Z -> string
}.

(** What a dialect's generator inherits from [AbstractQueryGenerator] and
    reads from its dialect. *)
Class AbstractQueryGenerator : Type := {
  dialectName : string;
  escape : jsval -> string;
  quoteIdentifier : string -> string;
  quoteTable : TableNameOrModel -> string;
  extractTableDetails : TableNameOrModel -> TableDetails;
  (** [super.changeColumnsQuery]: the ALTER TABLE statement *)
  abstractChangeColumnsQuery : TableNameOrModel -> ChangeColumnDefinitions -> string;
  normalizeChangeColumnAttribute : ChangeColumnAttribute -> ChangeColumnDefinition;
  (** [dataType.toSql()] *)
  toSql : DataType -> string
}.

(** ** The PostgreSQL generator *)

Module Postgres.
Section Generator.
Context {U : Utils} {G : AbstractQueryGenerator}.

(** [removeIndexQuery(tableName, indexNameOrAttributes, options?)] *)
Definition removeIndexQuery (tableName : TableNameOrModel)
    (indexNameOrAttributes : IndexNameOrAttributes)
    (options : option (jsobject jsval)) : result string :=
  if truthy (optProp options "cascade") && truthy (optProp options "concurrently")
  then Throw (Error ("Cannot specify both concurrently and cascade options in removeIndexQuery for "
                       ++ dialectName ++ " dialect"))
  else
    let table := extractTableDetails tableName in
    let indexName :=
      match indexNameOrAttributes with
      | IndexAttributes fields => generateIndexName table fields
      | IndexName name => name
      end in
    Ok (joinSQLFragments
          [ "DROP INDEX";
            if truthy (optProp options "concurrently") then "CONCURRENTLY" else "";
            if truthy (optProp options "ifExists") then "IF EXISTS" else "";
            quoteIdentifier (schema table) ++ "." ++ quoteIdentifier indexName;
            if truthy (optProp options "cascade") then "CASCADE" else "" ]).

(** [String(value)] on a path segment. *)
Definition segmentToString (p : PathSegment) : string :=
  match p with
  | SegNumber n => numberToString n
  | SegString s => s
  end.

(** [jsonPathExtractionQuery(sqlExpression, path, unquote)] *)
Definition jsonPathExtractionQuery (sqlExpression : string)
    (path : list PathSegment) (unquote : bool) : string :=
  let operator :=
    if (length path =? 1)%nat
    then (if unquote then "->>" else "->")
    else (if unquote then "#>>" else "#>") in
  let pathSql :=
    if (length path =? 1)%nat
    then escape (nth 0 (map segmentValue path) JUndefined)
    else escape (JArr (map (fun value => JStr (segmentToString value)) path)) in
  sqlExpression ++ operator ++ pathSql.

Definition formatUnquoteJson (arg : jsval) : string :=
  escape arg ++ "#>>ARRAY[]::TEXT[]".

Definition versionQuery : string := "SHOW SERVER_VERSION".

(** [dropEnumQuery(schema, dataTypeOrName)] *)
Definition dropEnumQuery (schemaName : string) (dataTypeOrName : DataTypeOrName)
  : string :=
  let name :=
    match dataTypeOrName with
    | ByName name => name
    | ByDataType dataType => toSql dataType
    end in
  "DROP TYPE IF EXISTS " ++ quoteIdentifier schemaName ++ "."
    ++ quoteIdentifier name ++ "; ".

(** [createEnumQuery(tableOrModel, dataType, options?)] *)
Definition createEnumQuery (tableOrModel : TableNameOrModel) (dataType : DataType)
    (options : option (jsobject jsval)) : result string :=
  match dataType with
  | ENUM enumValues =>
      let table := extractTableDetails tableOrModel in
      let enumName := toSql dataType in
      let values :=
        "ENUM(" ++ String.concat ", " (map (fun value => escape (JStr value)) enumValues)
                ++ ")" in
      let sql :=
        "DO " ++ escape (JStr ("BEGIN CREATE TYPE " ++ quoteIdentifier (schema table)
                                 ++ "." ++ quoteIdentifier enumName ++ "  AS " ++ values
                                 ++ "; EXCEPTION WHEN duplicate_object THEN null; END"))
              ++ ";" in
      match optProp options "force" with
      | JBool true => Ok (dropEnumQuery (schema table) (ByName enumName) ++ sql)
      | _ => Ok sql
      end
  | _ => Throw (TypeError "createEnumQuery expects an instance of the ENUM DataType")
  end.

(** [addValueToEnumQuery(schema, dataTypeOrName, value, options?)] *)
Definition addValueToEnumQuery (schemaName : string)
    (dataTypeOrName : DataTypeOrName) (value : string)
    (options : option (jsobject jsval)) : string :=
  let enumName :=
    match dataTypeOrName with
    | ByName name => name
    | ByDataType dataType => toSql dataType
    end in
  let sql :=
    "ALTER TYPE  " ++ quoteIdentifier schemaName ++ "." ++ quoteIdentifier enumName
      ++ " ADD VALUE IF NOT EXISTS " ++ escape (JStr value) in
  if truthy (optProp options "before")
  then sql ++ " BEFORE " ++ escape (optProp options "before")
  else if truthy (optProp options "after")
  then sql ++ " AFTER " ++ escape (optProp options "after")
  else sql.

(** The test guarding the enum branch of [changeColumnsQuery]:
    [type instanceof ENUM || type instanceof ARRAY && type.options.type instanceof ENUM]. *)
Definition isEnumOrArrayOfEnum (columnType : DataType) : bool :=
  match columnType with
  | ENUM _ => true
  | ARRAY (ENUM _) => true
  | _ => false
  end.

Definition commentOnColumn (table : TableDetails) (columnName value : string) : string :=
  "COMMENT ON COLUMN " ++ quoteTable (TableObject table) ++ "."
    ++ quoteIdentifier columnName ++ " IS " ++ value ++ ";".

Definition createSequence (table : TableDetails) (columnName : string) : string :=
  "CREATE SEQUENCE IF NOT EXISTS "
    ++ quoteIdentifier (generateSequenceName (tableName table) columnName)
    ++ " OWNED BY " ++ quoteTable (TableObject table) ++ "."
    ++ quoteIdentifier columnName ++ ";".

Definition renameEnum (table : TableDetails) (columnName : string) : string :=
  "ALTER TYPE " ++ quoteIdentifier (schema table) ++ "."
    ++ quoteIdentifier (generateEnumName (tableName table) columnName true)
    ++ " RENAME TO "
    ++ quoteIdentifier (generateEnumName (tableName table) columnName false) ++ ";".

(** The body of the loop of [changeColumnsQuery] over the normalised entries:
    [push] appends to [out], [unshift] puts in front of it. *)
Definition changeColumn (table : TableDetails) (out : list string)
    (entry : string * ChangeColumnDefinition) : result (list string) :=
  let (columnName, columnDef) := entry in
  let out :=
    match comment columnDef with
    | None => out
    | Some None => (out ++ [commentOnColumn table columnName "NULL"])%list
    | Some (Some text) =>
        (out ++ [commentOnColumn table columnName (escape (JStr text))])%list
    end in
  let out :=
    match autoIncrement columnDef with
    | Some true => createSequence table columnName :: out
    | _ => out
    end in
  match type columnDef with
  | Some columnType =>
      if isEnumOrArrayOfEnum columnType
      then
        let existingEnumName := generateEnumName (tableName table) columnName false in
        created <- createEnumQuery (TableObject table) columnType None ;;
        Ok ((created :: out)
              ++ [ dropEnumQuery (schema table) (ByName existingEnumName);
                   renameEnum table columnName ])%list
      else Ok out
  | None => Ok out
  end.

(** The array [out] of [changeColumnsQuery] when the loop is left. *)
Definition changeColumnsStatements (tableOrModel : TableNameOrModel)
    (columnDefinitions : ChangeColumnDefinitions) : result (list string) :=
  let sql := abstractChangeColumnsQuery tableOrModel columnDefinitions in
  let normalizedChangeColumnDefinitions :=
    mapValues columnDefinitions normalizeChangeColumnAttribute in
  let table := extractTableDetails tableOrModel in
  let out := if sql =? "" then [] else [sql] in
  forOf (changeColumn table) normalizedChangeColumnDefinitions out.

(** [changeColumnsQuery(tableOrModel, columnDefinitions)] *)
Definition changeColumnsQuery (tableOrModel : TableNameOrModel)
    (columnDefinitions : ChangeColumnDefinitions) : result string :=
  out <- changeColumnsStatements tableOrModel columnDefinitions ;;
  Ok (String.concat " " out).

End Generator.
End Postgres.

(** ** The MariaDB generator *)

Module MariaDb.
Section Generator.
Context {U : Utils} {G : AbstractQueryGenerator}.

(** Modelled from the spec: [REMOVE_INDEX_QUERY_SUPPORTABLE_OPTIONS], declared
    by the abstract generator, is not among the embedded files.  The spec
    gives the options of removeIndexQuery as ifExists, cascade and
    concurrently. *)
Definition REMOVE_INDEX_QUERY_SUPPORTABLE_OPTIONS : list string :=
  ["concurrently"; "ifExists"; "cascade"].

Definition REMOVE_INDEX_QUERY_SUPPORTED_OPTIONS : list string := ["ifExists"].

(** Modelled from the spec: [rejectInvalidOptions] of utils/check is not among
    the embedded files.  The spec has it reject, at call time, any option key
    that is not in the operation's supported-option set for the active
    dialect, reporting which keys are invalid. *)
Definition rejectInvalidOptions (methodName dialect : string)
    (allSupportableOptions supportedOptions : list string)
    (receivedOptions : jsobject jsval) : result unit :=
  let invalidOptions :=
    filter (fun optionName => negb (has supportedOptions optionName))
           (keys receivedOptions) in
  match invalidOptions with
  | [] => Ok tt
  | _ => Throw (Error (invalidOptionsMessage methodName dialect invalidOptions))
  end.

(** [removeIndexQuery(tableName, indexNameOrAttributes, options?)] *)
Definition removeIndexQuery (tableName : TableNameOrModel)
    (indexNameOrAttributes : IndexNameOrAttributes)
    (options : option (jsobject jsval)) : result string :=
  _ <- match options with
       | Some received =>
           rejectInvalidOptions "removeIndexQuery" dialectName
             REMOVE_INDEX_QUERY_SUPPORTABLE_OPTIONS
             REMOVE_INDEX_QUERY_SUPPORTED_OPTIONS received
       | None => Ok tt
       end ;;
  let indexName :=
    match indexNameOrAttributes with
    | IndexAttributes fields =>
        let table := extractTableDetails tableName in
        generateIndexName table fields
    | IndexName name => name
    end in
  Ok (joinSQLFragments
        [ "DROP INDEX";
          if truthy (optProp options "ifExists") then "IF EXISTS" else "";
          quoteIdentifier indexName;
          "ON";
          quoteTable tableName ]).

Definition getToggleForeignKeyChecksQuery (enable : bool) : string :=
  "SET FOREIGN_KEY_CHECKS=" ++ (if enable then "1" else "0").

(** [jsonPathExtractionQuery(sqlExpression, path, unquote)] *)
Definition jsonPathExtractionQuery (sqlExpression : string)
    (path : list PathSegment) (unquote : bool) : string :=
  let extractQuery :=
    "json_extract(" ++ sqlExpression ++ "," ++ escape (JStr (buildJsonPath path))
      ++ ")" in
  if unquote
  then "json_unquote(" ++ extractQuery ++ ")"
  else "json_compact(" ++ extractQuery ++ ")".

Definition formatUnquoteJson (arg : jsval) : string :=
  "json_unquote(" ++ escape arg ++ ")".

Definition versionQuery : string := "SELECT VERSION() as `version`".

End Generator.
End MariaDb.

(** ** The internal query interface *)

Module QueryInterfaceInternal.

(** [QueryTypes]: the member this file uses. *)
Inductive QueryTypes : Type := SELECT.

(** The options handed to [queryRaw]:
    [{ ...options, type: QueryTypes.SELECT, plain: true }]. *)
Record QueryRawOptions : Type := mkQueryRawOptions {
  spread : option (jsobject jsval);
  queryType : QueryTypes;
  plain : bool
}.

(** The dialect the interface is built on: the version query of its
    generator and the raw-query executor of its Sequelize instance.  What the
    executor resolves to is a value, or a rejection. *)
Class AbstractDialect : Type := {
  queryGenerator_versionQuery : string;
  sequelize_queryRaw : string -> QueryRawOptions -> result jsval
}.

Section Interface.
Context {D : AbstractDialect}.

(** [fetchDatabaseVersionRaw(options?)]; [assert(out != null)] throws an
    AssertionError when [out] is [null] or [undefined]. *)
Definition fetchDatabaseVersionRaw (options : option (jsobject jsval))
  : result jsval :=
  out <- sequelize_queryRaw queryGenerator_versionQuery
           (mkQueryRawOptions options SELECT true) ;;
  if isNullish out then Throw AssertionError else Ok out.

End Interface.
End QueryInterfaceInternal.

(** ** A concrete dialect

    Plain implementations of the services, on which the generators can be
    run: literals in single quotes, identifiers in double quotes, schema
    [public] by default. *)

Module Fixture.

Definition dquote : string := String (ascii_of_nat 34) EmptyString.

Definition newline : string := String (ascii_of_nat 10) EmptyString.

Definition decimal (n : Z) : string := NilZero.string_of_int (Z.to_int n).

Fixpoint doubleQuotes (s : string) : string :=
  match s with
  | EmptyString => EmptyString
  | String c rest =>
      if Ascii.eqb c "'"%char
      then String c (String c (doubleQuotes rest))
      else String c (doubleQuotes rest)
  end.

Fixpoint escapeValue (v : jsval) : string :=
  match v with
  | JUndefined | JNull => "NULL"
  | JBool b => if b then "true" else "false"
  | JNum n => decimal n
  | JStr s => "'" ++ doubleQuotes s ++ "'"
  | JArr items => "ARRAY[" ++ String.concat "," (map escapeValue items) ++ "]"
  | JObj _ => "'{}'"
  end.

Definition quoteName (name : string) : string := dquote ++ name ++ dquote.

Definition resolve (t : TableNameOrModel) : TableDetails :=
  match t with
  | TableName name => mkTable name "public"
  | TableObject table => table
  | Model modelName => mkTable modelName "public"
  end.

Definition quoteResolved (t : TableNameOrModel) : string :=
  quoteName (schema (resolve t)) ++ "." ++ quoteName (tableName (resolve t)).

Definition normalize (a : ChangeColumnAttribute) : ChangeColumnDefinition :=
  match a with
  | AttrDataType dataType => mkColumn (Some dataType) None None
  | AttrDefinition definition => definition
  end.

Fixpoint typeName (t : DataType) : string :=
  match t with
  | ENUM _ => "enum_new"
  | ARRAY elementType => typeName elementType ++ "[]"
  | OtherDataType key => key
  end.

Definition alterTable (t : TableNameOrModel) (defs : ChangeColumnDefinitions) : string :=
  "ALTER TABLE " ++ quoteResolved t ++ " "
    ++ String.concat ", " (map (fun kv => "ALTER COLUMN " ++ quoteName (fst kv)) defs)
    ++ ";".

Definition jsonPath (path : list PathSegment) : string :=
  "$" ++ String.concat ""
           (map (fun p => match p with
                          | SegNumber n => "[" ++ decimal n ++ "]"
                          | SegString s => "." ++ s
                          end) path).

#[export] Instance utils : Utils := {|
  joinSQLFragments fragments :=
    String.concat " " (filter (fun f => negb (f =? "")) fragments);
  generateIndexName table fields :=
    tableName table ++ "_" ++ String.concat "_" fields;
  generateEnumName table column replacement :=
    (if replacement then "tmp_enum_" else "enum_") ++ table ++ "_" ++ column;
  generateSequenceName table column := table ++ "_" ++ column ++ "_seq";
  buildJsonPath := jsonPath;
  invalidOptionsMessage methodName dialect invalid :=
    "The following options are not supported by " ++ methodName ++ " in "
      ++ dialect ++ ": " ++ String.concat ", " invalid;
  numberToString := decimal
|}.

Definition generator (name : string) : AbstractQueryGenerator := {|
  dialectName := name;
  escape := escapeValue;
  quoteIdentifier := quoteName;
  quoteTable := quoteResolved;
  extractTableDetails := resolve;
  abstractChangeColumnsQuery := alterTable;
  normalizeChangeColumnAttribute := normalize;
  toSql := typeName
|}.

Definition postgres : AbstractQueryGenerator := generator "postgres".
Definition mariadb : AbstractQueryGenerator := generator "mariadb".

(** A dialect whose executor resolves every query to [out]. *)
Definition dialectAnswering (out : jsval) : QueryInterfaceInternal.AbstractDialect := {|
  QueryInterfaceInternal.queryGenerator_versionQuery := @Postgres.versionQuery;
  QueryInterfaceInternal.sequelize_queryRaw := fun _ _ => Ok out
|}.

(** The first row or [null]: the result of a query run with [plain: true]. *)
Definition plainResult (rows : list jsval) : jsval :=
  match rows with
  | [] => JNull
  | row :: _ => row
  end.

End Fixture.

(** ** Reading a batch of statements *)

(** [s.startsWith(p)] *)
Fixpoint startsWith (s p : string) {struct p} : bool :=
  match p with
  | EmptyString => true
  | String a p' =>
      match s with
      | EmptyString => false
      | String b s' => Ascii.eqb a b && startsWith s' p'
      end
  end.

(** Whether a line feed occurs in [s]. *)
Fixpoint hasNewline (s : string) : bool :=
  match s with
  | EmptyString => false
  | String c rest => Ascii.eqb c "010"%char || hasNewline rest
  end.

(** A statement closed by the terminator, with at most a space behind it. *)
Definition terminated (s : string) : Prop :=
  exists body, s = body ++ ";" \/ s = body ++ "; ".

Definition hasCommentKey (columnDef : ChangeColumnDefinition) : bool :=
  match comment columnDef with
  | Some _ => true
  | None => false
  end.

Definition isArrayOfEnum (columnDef : ChangeColumnDefinition) : bool :=
  match type columnDef with
  | Some (ARRAY (ENUM _)) => true
  | _ => false
  end.

(** The error with which [createEnumQuery] refuses what is not an enum. *)
Definition enumExpected : exn :=
  TypeError "createEnumQuery expects an instance of the ENUM DataType".

(** Statements that begin as the comment statements do. *)
Definition isCommentStatement (s : string) : bool :=
  startsWith s "COMMENT ON COLUMN ".

(** Statements that begin as the sequence creations do. *)
Definition isSequenceStatement (s : string) : bool :=
  startsWith s "CREATE SEQUENCE ".

Section Batch.
Context {U : Utils} {G : AbstractQueryGenerator}.

(** What one turn of the loop of [changeColumnsQuery] puts in front of [out]
    for a column that is not an array of enums: the enum creation, then the
    sequence creation. *)
Definition unshiftedBy (table : TableDetails)
    (entry : string * ChangeColumnDefinition) : list string :=
  (match type (snd entry) with
   | Some (ENUM enumValues) =>
       match Postgres.createEnumQuery (TableObject table) (ENUM enumValues) None with
       | Ok created => [created]
       | Throw _ => []
       end
   | _ => []
   end
   ++
   match autoIncrement (snd entry) with
   | Some true => [Postgres.createSequence table (fst entry)]
   | _ => []
   end)%list.

(** What the same turn appends to [out]: the comment, then the removal of
    the old enum and the renaming of the new one. *)
Definition pushedBy (table : TableDetails)
    (entry : string * ChangeColumnDefinition) : list string :=
  (match comment (snd entry) with
   | None => []
   | Some None => [Postgres.commentOnColumn table (fst entry) "NULL"]
   | Some (Some text) => [Postgres.commentOnColumn table (fst entry) (escape (JStr text))]
   end
   ++
   match type (snd entry) with
   | Some (ENUM _) =>
       [ Postgres.dropEnumQuery (schema table)
           (ByName (generateEnumName (tableName table) (fst entry) false));
         Postgres.renameEnum table (fst entry) ]
   | _ => []
   end)%list.

End Batch.

(** ** Catalogue queries and the listing of enums *)

(** [s] between double quotes, as the column aliases are written. *)
Definition dq (s : string) : string :=
  String (ascii_of_nat 34) (s ++ String (ascii_of_nat 34) EmptyString).

Module PostgresCatalog.

(** [ListEnumQueryOptions]: both keys optional. *)
Record ListEnumQueryOptions : Type := mkListEnumQueryOptions {
  enumSchema : option string;
  dataTypeOrName : option DataTypeOrName
}.

(** What [listEnumsQuery] reads besides its argument: [this.options.schema]
    and [this.dialect.getDefaultSchema()]. *)
Class GeneratorSettings : Type := {
  optionsSchema : option string;
  getDefaultSchema : string
}.

(** [s || fallback] on an optional string: [s] when it is a non-empty
    string, [fallback] otherwise. *)
Definition orElse (s : option string) (fallback : string) : string :=
  match s with
  | Some text => if text =? "" then fallback else text
  | None => fallback
  end.

Section Generator.
Context {U : Utils} {G : AbstractQueryGenerator} {S : GeneratorSettings}.

(** [describeTableQuery(tableName)] *)
Definition describeTableQuery (tableRef : TableNameOrModel) : string :=
  let table := extractTableDetails tableRef in
  joinSQLFragments
    [
      "SELECT";
      "pk.constraint_type as " ++ dq "Constraint" ++ ",";
      "c.column_name as " ++ dq "Field" ++ ",";
      "c.column_default as " ++ dq "Default" ++ ",";
      "c.is_nullable as " ++ dq "Null" ++ ",";
      "(CASE WHEN c.udt_name = 'hstore' THEN c.udt_name ELSE c.data_type END) || (CASE WHEN c.character_maximum_length IS NOT NULL THEN '(' || c.character_maximum_length || ')' ELSE '' END) as " ++ dq "Type" ++ ",";
      "(SELECT array_agg(e.enumlabel) FROM pg_catalog.pg_type t JOIN pg_catalog.pg_enum e ON t.oid=e.enumtypid WHERE t.typname=c.udt_name) AS " ++ dq "special" ++ ",";
      "(SELECT pgd.description FROM pg_catalog.pg_statio_all_tables AS st INNER JOIN pg_catalog.pg_description pgd on (pgd.objoid=st.relid) WHERE c.ordinal_position=pgd.objsubid AND c.table_name=st.relname) AS " ++ dq "Comment";
      "FROM information_schema.columns c";
      "LEFT JOIN (SELECT tc.table_schema, tc.table_name,";
      "cu.column_name, tc.constraint_type";
      "FROM information_schema.TABLE_CONSTRAINTS tc";
      "JOIN information_schema.KEY_COLUMN_USAGE  cu";
      "ON tc.table_schema=cu.table_schema and tc.table_name=cu.table_name";
      "and tc.constraint_name=cu.constraint_name";
      "and tc.constraint_type='PRIMARY KEY') pk";
      "ON pk.table_schema=c.table_schema";
      "AND pk.table_name=c.table_name";
      "AND pk.column_name=c.column_name";
      "WHERE c.table_name = " ++ escape (JStr (tableName table));
      "AND c.table_schema = " ++ escape (JStr (schema table))
    ].

(** [showConstraintsQuery(tableName, options?)] *)
Definition showConstraintsQuery (tableRef : TableNameOrModel)
    (options : option (jsobject jsval)) : string :=
  let table := extractTableDetails tableRef in
  joinSQLFragments
    [
      "SELECT c.constraint_catalog AS " ++ dq "constraintCatalog" ++ ",";
      "c.constraint_schema AS " ++ dq "constraintSchema" ++ ",";
      "c.constraint_name AS " ++ dq "constraintName" ++ ",";
      "c.constraint_type AS " ++ dq "constraintType" ++ ",";
      "c.table_catalog AS " ++ dq "tableCatalog" ++ ",";
      "c.table_schema AS " ++ dq "tableSchema" ++ ",";
      "c.table_name AS " ++ dq "tableName" ++ ",";
      "kcu.column_name AS " ++ dq "columnNames" ++ ",";
      "ccu.table_schema AS " ++ dq "referencedTableSchema" ++ ",";
      "ccu.table_name AS " ++ dq "referencedTableName" ++ ",";
      "ccu.column_name AS " ++ dq "referencedColumnNames" ++ ",";
      "r.delete_rule AS " ++ dq "deleteAction" ++ ",";
      "r.update_rule AS " ++ dq "updateAction" ++ ",";
      "ch.check_clause AS " ++ dq "definition" ++ ",";
      "c.is_deferrable AS " ++ dq "isDeferrable" ++ ",";
      "c.initially_deferred AS " ++ dq "initiallyDeferred";
      "FROM INFORMATION_SCHEMA.table_constraints c";
      "LEFT JOIN INFORMATION_SCHEMA.referential_constraints r ON c.constraint_catalog = r.constraint_catalog AND c.constraint_schema = r.constraint_schema AND c.constraint_name = r.constraint_name";
      "LEFT JOIN INFORMATION_SCHEMA.key_column_usage kcu ON r.constraint_catalog = kcu.constraint_catalog AND r.constraint_schema = kcu.constraint_schema AND r.constraint_name = kcu.constraint_name";
      "LEFT JOIN information_schema.constraint_column_usage AS ccu ON r.constraint_catalog = ccu.constraint_catalog AND r.constraint_schema = ccu.constraint_schema AND r.constraint_name = ccu.constraint_name";
      "LEFT JOIN INFORMATION_SCHEMA.check_constraints ch ON c.constraint_catalog = ch.constraint_catalog AND c.constraint_schema = ch.constraint_schema AND c.constraint_name = ch.constraint_name";
      "WHERE c.table_name = " ++ escape (JStr (tableName table));
      "AND c.table_schema = " ++ escape (JStr (schema table));
      if truthy (optProp options "constraintName")
      then "AND c.constraint_name = " ++ escape (optProp options "constraintName")
      else "";
      "ORDER BY c.constraint_name, kcu.ordinal_position"
    ].

(** [showIndexesQuery(tableName)] *)
Definition showIndexesQuery (tableRef : TableNameOrModel) : string :=
  let table := extractTableDetails tableRef in
  joinSQLFragments
    [
      "SELECT i.relname AS name, ix.indisprimary AS primary, ix.indisunique AS unique, ix.indkey[:ix.indnkeyatts-1] AS index_fields,";
      "ix.indkey[ix.indnkeyatts:] AS include_fields, array_agg(a.attnum) as column_indexes, array_agg(a.attname) AS column_names,";
      "pg_get_indexdef(ix.indexrelid) AS definition FROM pg_class t, pg_class i, pg_index ix, pg_attribute a , pg_namespace s";
      "WHERE t.oid = ix.indrelid AND i.oid = ix.indexrelid AND a.attrelid = t.oid AND";
      "t.relkind = 'r' and t.relname = " ++ escape (JStr (tableName table));
      "AND s.oid = t.relnamespace AND s.nspname = " ++ escape (JStr (schema table));
      "GROUP BY i.relname, ix.indexrelid, ix.indisprimary, ix.indisunique, ix.indkey, ix.indnkeyatts ORDER BY i.relname;"
    ].

(** [listEnumsQuery(options?)] *)
Definition listEnumsQuery (options : option ListEnumQueryOptions) : string :=
  let requested :=
    match options with
    | Some given => dataTypeOrName given
    | None => None
    end in
  let enumName :=
    match requested with
    | None => ""
    | Some (ByName name) => if name =? "" then "" else name
    | Some (ByDataType dataType) => toSql dataType
    end in
  let enumNameFilter :=
    if enumName =? "" then "" else " AND t.typname=" ++ escape (JStr enumName) in
  let requestedSchema :=
    match options with
    | Some given => enumSchema given
    | None => None
    end in
  let schemaName := orElse requestedSchema (orElse optionsSchema getDefaultSchema) in
  "SELECT t.typname enum_name, array_agg(e.enumlabel ORDER BY enumsortorder) enum_value FROM pg_type t "
    ++ "JOIN pg_enum name ON t.oid = e.enumtypid "
    ++ "JOIN pg_catalog.pg_namespace schema ON n.oid = t.typnamespace "
    ++ "WHERE n.nspname = "
    ++ escape (JStr schemaName) ++ enumNameFilter ++ " GROUP BY 1".

End Generator.
End PostgresCatalog.

Module MariaDbCatalog.
Section Generator.
Context {U : Utils} {G : AbstractQueryGenerator}.

(** [describeTableQuery(tableName)] *)
Definition describeTableQuery (tableRef : TableNameOrModel) : string :=
  "SHOW FULL COLUMNS FROM " ++ quoteTable tableRef ++ ";".

(** [showConstraintsQuery(tableName, options?)] *)
Definition showConstraintsQuery (tableRef : TableNameOrModel)
    (options : option (jsobject jsval)) : string :=
  let table := extractTableDetails tableRef in
  joinSQLFragments
    [
      "SELECT c.CONSTRAINT_CATALOG AS constraintCatalog,";
      "c.CONSTRAINT_SCHEMA AS constraintSchema,";
      "c.CONSTRAINT_NAME AS constraintName,";
      "c.CONSTRAINT_TYPE AS constraintType,";
      "c.TABLE_SCHEMA AS tableSchema,";
      "c.TABLE_NAME AS tableName,";
      "kcu.COLUMN_NAME AS columnNames,";
      "kcu.REFERENCED_TABLE_NAME AS referencedTableName,";
      "kcu.REFERENCED_COLUMN_NAME AS referencedColumnNames,";
      "r.DELETE_RULE AS deleteAction,";
      "r.UPDATE_RULE AS updateAction,";
      "ch.CHECK_CLAUSE AS definition";
      "FROM INFORMATION_SCHEMA.TABLE_CONSTRAINTS c";
      "LEFT JOIN INFORMATION_SCHEMA.REFERENTIAL_CONSTRAINTS r ON c.CONSTRAINT_CATALOG = r.CONSTRAINT_CATALOG";
      "AND c.CONSTRAINT_SCHEMA = r.CONSTRAINT_SCHEMA AND c.CONSTRAINT_NAME = r.CONSTRAINT_NAME AND c.TABLE_NAME = r.TABLE_NAME";
      "LEFT JOIN INFORMATION_SCHEMA.KEY_COLUMN_USAGE kcu ON r.CONSTRAINT_CATALOG = kcu.CONSTRAINT_CATALOG";
      "AND r.CONSTRAINT_SCHEMA = kcu.CONSTRAINT_SCHEMA AND r.CONSTRAINT_NAME = kcu.CONSTRAINT_NAME AND r.TABLE_NAME = kcu.TABLE_NAME";
      "LEFT JOIN INFORMATION_SCHEMA.CHECK_CONSTRAINTS ch ON c.CONSTRAINT_CATALOG = ch.CONSTRAINT_CATALOG";
      "AND c.CONSTRAINT_SCHEMA = ch.CONSTRAINT_SCHEMA AND c.CONSTRAINT_NAME = ch.CONSTRAINT_NAME";
      "WHERE c.TABLE_NAME = " ++ escape (JStr (tableName table));
      "AND c.TABLE_SCHEMA = " ++ escape (JStr (schema table));
      if truthy (optProp options "constraintName")
      then "AND c.CONSTRAINT_NAME = " ++ escape (optProp options "constraintName")
      else "";
      "ORDER BY c.CONSTRAINT_NAME"
    ].

(** [showIndexesQuery(tableName)] *)
Definition showIndexesQuery (tableRef : TableNameOrModel) : string :=
  "SHOW INDEX FROM " ++ quoteTable tableRef.

End Generator.
End MariaDbCatalog.

(** ** Counting the columns of a mapping *)

Definition isAutoIncrement (columnDef : ChangeColumnDefinition) : bool :=
  match autoIncrement columnDef with
  | Some true => true
  | _ => false
  end.

Definition isEnumColumn (columnDef : ChangeColumnDefinition) : bool :=
  match type columnDef with
  | Some (ENUM _) => true
  | _ => false
  end.

(** How many columns of a mapping have a normalised definition that [test]
    accepts. *)
Definition countColumns {G : AbstractQueryGenerator}
    (test : ChangeColumnDefinition -> bool)
    (columnDefinitions : ChangeColumnDefinitions) : nat :=
  length (filter (fun kv => test (normalizeChangeColumnAttribute (snd kv)))
                 columnDefinitions).

(** A generator like [Fixture.postgres] whose inherited [changeColumnsQuery]
    has nothing to alter and returns the empty string. *)
Definition silentGenerator : AbstractQueryGenerator := {|
  dialectName := "postgres";
  escape := Fixture.escapeValue;
  quoteIdentifier := Fixture.quoteName;
  quoteTable := Fixture.quoteResolved;
  extractTableDetails := Fixture.resolve;
  abstractChangeColumnsQuery := fun _ _ => "";
  normalizeChangeColumnAttribute := Fixture.normalize;
  toSql := Fixture.typeName
|}.

(** Settings with no schema of their own and [public] as the default. *)
Definition publicSettings : PostgresCatalog.GeneratorSettings := {|
  PostgresCatalog.optionsSchema := None;
  PostgresCatalog.getDefaultSchema := "public"
|}.

(** What [join(' ')] writes behind an element that is followed by [rest]. *)
Definition joinedAfter (rest : list string) : string :=
  match rest with
  | [] => ""
  | _ => " " ++ String.concat " " rest
  end.

(** * Properties *)

(** ** Index removal *)

Section RemoveIndex.
Context {U : Utils} {G : AbstractQueryGenerator}.

Lemma postgres_removeIndexQuery_conflict tableName index options :
  truthy (optProp options "cascade") = true ->
  truthy (optProp options "concurrently") = true ->
  Postgres.removeIndexQuery tableName index options
  = Throw (Error ("Cannot specify both concurrently and cascade options in removeIndexQuery for "
                    ++ dialectName ++ " dialect")).
Proof.
  intros Hcascade Hconcurrently. unfold Postgres.removeIndexQuery.
  now rewrite Hcascade, Hconcurrently.
Qed.

Lemma postgres_removeIndexQuery_returns tableName index options :
  truthy (optProp options "cascade") && truthy (optProp options "concurrently") = false ->
  exists sql, Postgres.removeIndexQuery tableName index options = Ok sql.
Proof.
  intros Hfree. unfold Postgres.removeIndexQuery. rewrite Hfree. eauto.
Qed.

(** The keys [rejectInvalidOptions] reports are the received keys outside
    the supported set. *)
Lemma rejectInvalidOptions_accepts methodName dialect supportable supported received :
  (forall k, In k (keys received) -> In k supported) ->
  MariaDb.rejectInvalidOptions methodName dialect supportable supported received = Ok tt.
Proof.
  intros Hall. unfold MariaDb.rejectInvalidOptions.
  replace (filter _ (keys received)) with (@nil string); [reflexivity|].
  symmetry. induction (keys received) as [|k ks IH]; [reflexivity|].
  simpl. assert (Hk : has supported k = true).
  { unfold has. apply existsb_exists. exists k. split.
    - apply Hall. now left.
    - apply String.eqb_refl. }
  rewrite Hk. simpl. apply IH. intros k' Hin. apply Hall. now right.
Qed.

Lemma has_In set k : has set k = true <-> In k set.
Proof.
  unfold has. rewrite existsb_exists. split.
  - intros [x [Hin Heq]]. apply String.eqb_eq in Heq. now subst.
  - intros Hin. exists k. split; [assumption | apply String.eqb_refl].
Qed.

Lemma rejectInvalidOptions_rejects methodName dialect supportable supported received :
  (exists k, In k (keys received) /\ ~ In k supported) ->
  exists invalid,
    MariaDb.rejectInvalidOptions methodName dialect supportable supported received
    = Throw (Error (invalidOptionsMessage methodName dialect invalid))
    /\ invalid <> []
    /\ forall k, In k invalid <-> In k (keys received) /\ ~ In k supported.
Proof.
  intros [k [Hin Hout]]. unfold MariaDb.rejectInvalidOptions.
  set (invalid := filter _ (keys received)).
  assert (Hspec : forall k', In k' invalid <-> In k' (keys received) /\ ~ In k' supported).
  { intros k'. unfold invalid. rewrite filter_In, negb_true_iff.
    pose proof (has_In supported k') as Hhas. destruct (has supported k').
    - split; intros [H1 H2]; [discriminate | elim H2; now apply Hhas].
    - split; intros [H1 H2]; (split; [assumption|]); [|reflexivity].
      intros Hk. apply Hhas in Hk. discriminate. }
  exists invalid. destruct invalid as [|k0 rest] eqn:E.
  - exfalso. apply (proj2 (Hspec k)). now split.
  - repeat split; try discriminate; apply Hspec; assumption.
Qed.

End RemoveIndex.

Section RemoveIndexClaims.
Context {U : Utils} {G : AbstractQueryGenerator}.

(** C1.  For every table reference and index name, the PostgreSQL
    [removeIndexQuery] called with options in which [cascade] and
    [concurrently] are both [true] throws the configuration error (an
    [Error] saying that the two options cannot be specified together) and
    returns no SQL.  The outcome is fixed by the options and the dialect's
    name alone, whatever the services that build SQL (table resolution,
    index naming, quoting, fragment joining) would do: the check comes first. *)
Theorem removeIndexQuery_cascade_concurrently_rejected
    (tableName : TableNameOrModel) (index : IndexNameOrAttributes)
    (options : jsobject jsval) :
  getProp options "cascade" = JBool true ->
  getProp options "concurrently" = JBool true ->
  Postgres.removeIndexQuery tableName index (Some options)
  = Throw (Error ("Cannot specify both concurrently and cascade options in removeIndexQuery for "
                    ++ dialectName ++ " dialect"))
  /\ forall sql, Postgres.removeIndexQuery tableName index (Some options) <> Ok sql.
Proof.
  intros Hcascade Hconcurrently.
  assert (Hthrow := postgres_removeIndexQuery_conflict tableName index (Some options)).
  simpl in Hthrow. rewrite Hcascade, Hconcurrently in Hthrow.
  specialize (Hthrow eq_refl eq_refl). split; [exact Hthrow|].
  intros sql Hsql. rewrite Hthrow in Hsql. discriminate.
Qed.

(** C2, as amended.  Option keys are validated by the MariaDB
    [removeIndexQuery] alone.  Given an options object, it rejects at call
    time every key outside its supported set, which holds [ifExists] only:
    the call throws an error built from exactly the invalid keys and returns
    no SQL, in particular whenever [cascade] or [concurrently] is among the
    keys; with no key but [ifExists] it returns its SQL.  The PostgreSQL
    [removeIndexQuery] validates no key: it returns SQL for every options
    object in which [cascade] and [concurrently] are not both truthy. *)
Theorem removeIndexQuery_option_validation
    (tableName : TableNameOrModel) (index : IndexNameOrAttributes)
    (options : jsobject jsval) :
  ((exists k, In k (keys options) /\ k <> "ifExists") ->
   exists invalid,
     MariaDb.removeIndexQuery tableName index (Some options)
     = Throw (Error (invalidOptionsMessage "removeIndexQuery" dialectName invalid))
     /\ invalid <> []
     /\ forall k, In k invalid <-> In k (keys options) /\ k <> "ifExists")
  /\ (In "cascade" (keys options) \/ In "concurrently" (keys options) ->
      forall sql, MariaDb.removeIndexQuery tableName index (Some options) <> Ok sql)
  /\ ((forall k, In k (keys options) -> k = "ifExists") ->
      exists indexName,
        MariaDb.removeIndexQuery tableName index (Some options)
        = Ok (joinSQLFragments
                [ "DROP INDEX";
                  if truthy (getProp options "ifExists") then "IF EXISTS" else "";
                  quoteIdentifier indexName; "ON"; quoteTable tableName ]))
  /\ (truthy (getProp options "cascade") && truthy (getProp options "concurrently") = false ->
      exists sql, Postgres.removeIndexQuery tableName index (Some options) = Ok sql).
Proof.
  assert (Hreject : (exists k, In k (keys options) /\ k <> "ifExists") ->
    exists invalid,
      MariaDb.removeIndexQuery tableName index (Some options)
      = Throw (Error (invalidOptionsMessage "removeIndexQuery" dialectName invalid))
      /\ invalid <> []
      /\ forall k, In k invalid <-> In k (keys options) /\ k <> "ifExists").
  { intros [k [Hin Hne]].
    destruct (rejectInvalidOptions_rejects "removeIndexQuery" dialectName
                MariaDb.REMOVE_INDEX_QUERY_SUPPORTABLE_OPTIONS
                MariaDb.REMOVE_INDEX_QUERY_SUPPORTED_OPTIONS options)
      as [invalid [Hthrow [Hnonempty Hspec]]].
    { exists k. split; [assumption|]. simpl. intros [Heq|[]]. now apply Hne. }
    exists invalid. unfold MariaDb.removeIndexQuery. rewrite Hthrow.
    split; [reflexivity | split; [assumption|]].
    intros k'. rewrite Hspec. simpl. split; intros [Hk Hne'].
    - split; [assumption|]. intros Heq. apply Hne'. left. now symmetry.
    - split; [assumption|]. intros [Heq|[]]. apply Hne'. now symmetry. }
  split; [|split; [|split]].
  - exact Hreject.
  - intros Hkeys sql Hsql.
    destruct Hreject as [invalid [Hthrow _]].
    { destruct Hkeys as [Hk|Hk];
        [exists "cascade" | exists "concurrently"]; (split; [assumption | discriminate]). }
    rewrite Hthrow in Hsql. discriminate.
  - intros Honly. unfold MariaDb.removeIndexQuery.
    rewrite rejectInvalidOptions_accepts.
    + simpl. eexists. reflexivity.
    + intros k Hk. simpl. left. symmetry. now apply Honly.
  - intros Hfree. now apply postgres_removeIndexQuery_returns.
Qed.

End RemoveIndexClaims.

Lemma removeIndexQuery_cascade_concurrently_rejected_witness :
  Postgres.removeIndexQuery (U := Fixture.utils) (G := Fixture.postgres) (TableName "users")
    (IndexAttributes ["email"; "name"])
    (Some [("cascade", JBool true); ("concurrently", JBool true)])
  = Throw (Error "Cannot specify both concurrently and cascade options in removeIndexQuery for postgres dialect").
Proof.
  apply (removeIndexQuery_cascade_concurrently_rejected
           (U := Fixture.utils) (G := Fixture.postgres) (TableName "users")
           (IndexAttributes ["email"; "name"])
           [("cascade", JBool true); ("concurrently", JBool true)]);
    reflexivity.
Defined.

(** The PostgreSQL generator reads the option keys it knows and ignores the
    others: an options object with a foreign key is accepted by
    [removeIndexQuery], and by [addValueToEnumQuery] as well. *)
Lemma postgres_unknown_option_key_accepted :
  Postgres.removeIndexQuery (U := Fixture.utils) (G := Fixture.postgres) (TableName "users")
    (IndexName "users_email") (Some [("restrict", JBool true)])
  = Ok ("DROP INDEX " ++ Fixture.quoteName "public" ++ "."
          ++ Fixture.quoteName "users_email")
  /\ Postgres.addValueToEnumQuery (G := Fixture.postgres) "public" (ByName "mood")
       "calm" (Some [("position", JNum 2)])
     = "ALTER TYPE  " ++ Fixture.quoteName "public" ++ "." ++ Fixture.quoteName "mood"
         ++ " ADD VALUE IF NOT EXISTS 'calm'".
Proof.
  split; reflexivity.
Qed.

Lemma removeIndexQuery_option_validation_witness :
  (forall sql,
     MariaDb.removeIndexQuery (U := Fixture.utils) (G := Fixture.mariadb) (TableName "users")
       (IndexName "users_email")
       (Some [("ifExists", JBool true); ("cascade", JBool true)]) <> Ok sql)
  /\ (exists indexName,
        MariaDb.removeIndexQuery (U := Fixture.utils) (G := Fixture.mariadb) (TableName "users")
          (IndexName "users_email") (Some [("ifExists", JBool true)])
        = Ok (joinSQLFragments (Utils := Fixture.utils)
                [ "DROP INDEX"; "IF EXISTS"; Fixture.quoteName indexName; "ON";
                  Fixture.quoteResolved (TableName "users") ]))
  /\ (exists sql,
        Postgres.removeIndexQuery (U := Fixture.utils) (G := Fixture.postgres) (TableName "users")
          (IndexName "users_email")
          (Some [("ifExists", JBool true); ("cascade", JBool true)]) = Ok sql).
Proof.
  split; [|split].
  - apply (removeIndexQuery_option_validation (U := Fixture.utils) (G := Fixture.mariadb)
             (TableName "users") (IndexName "users_email")
             [("ifExists", JBool true); ("cascade", JBool true)]).
    left. simpl. right. now left.
  - apply (removeIndexQuery_option_validation (U := Fixture.utils) (G := Fixture.mariadb)
             (TableName "users") (IndexName "users_email")
             [("ifExists", JBool true)]).
    intros k [Hk|[]]. now symmetry.
  - apply (removeIndexQuery_option_validation (U := Fixture.utils) (G := Fixture.postgres)
             (TableName "users") (IndexName "users_email")
             [("ifExists", JBool true); ("cascade", JBool true)]).
    reflexivity.
Defined.

(** ** The database version *)

(** An executor that resolves to two rows, or to the first of two rows,
    yields a value that is not [null]: the assertion passes and the value is
    returned. *)
Lemma fetchDatabaseVersionRaw_returns_on_two_rows :
  QueryInterfaceInternal.fetchDatabaseVersionRaw
    (D := Fixture.dialectAnswering
            (JArr [ JObj [("server_version", JStr "15.4")];
                    JObj [("server_version", JStr "16.1")] ]))
    None
  = Ok (JArr [ JObj [("server_version", JStr "15.4")];
               JObj [("server_version", JStr "16.1")] ])
  /\ QueryInterfaceInternal.fetchDatabaseVersionRaw
       (D := Fixture.dialectAnswering
               (Fixture.plainResult
                  [ JObj [("server_version", JStr "15.4")];
                    JObj [("server_version", JStr "16.1")] ]))
       None
     = Ok (JObj [("server_version", JStr "15.4")]).
Proof.
  split; reflexivity.
Qed.

Section DatabaseVersion.
Import QueryInterfaceInternal.
Context {D : AbstractDialect}.

(** C5, as amended.  [fetchDatabaseVersionRaw] runs the version query of the
    generator as a SELECT in plain mode, with the caller's options, and
    asserts that the result is not [null]: when the executor resolves to
    [null] or [undefined] (no row) the call throws an assertion failure
    instead of returning, any other result is returned unchanged, and a
    rejection of the executor is passed on.  The row count is not looked at. *)
Theorem fetchDatabaseVersionRaw_asserts_non_null (options : option (jsobject jsval)) :
  (forall out,
     sequelize_queryRaw queryGenerator_versionQuery (mkQueryRawOptions options SELECT true)
     = Ok out ->
     (out = JNull \/ out = JUndefined -> fetchDatabaseVersionRaw options = Throw AssertionError)
     /\ (out <> JNull -> out <> JUndefined -> fetchDatabaseVersionRaw options = Ok out))
  /\ (forall e,
        sequelize_queryRaw queryGenerator_versionQuery (mkQueryRawOptions options SELECT true)
        = Throw e ->
        fetchDatabaseVersionRaw options = Throw e).
Proof.
  unfold fetchDatabaseVersionRaw. split.
  - intros out Hout. rewrite Hout. simpl. split.
    + intros [Hnull|Hundefined]; subst out; reflexivity.
    + intros Hnull Hundefined. destruct out; try reflexivity; congruence.
  - intros e He. rewrite He. reflexivity.
Qed.

End DatabaseVersion.

Lemma fetchDatabaseVersionRaw_asserts_non_null_witness :
  QueryInterfaceInternal.fetchDatabaseVersionRaw
    (D := Fixture.dialectAnswering (Fixture.plainResult [])) None
  = Throw AssertionError
  /\ QueryInterfaceInternal.fetchDatabaseVersionRaw
       (D := Fixture.dialectAnswering (JObj [("server_version", JStr "15.4")])) None
     = Ok (JObj [("server_version", JStr "15.4")]).
Proof.
  split.
  - apply (proj1 (fetchDatabaseVersionRaw_asserts_non_null
                    (D := Fixture.dialectAnswering (Fixture.plainResult [])) None)
             JNull eq_refl).
    now left.
  - apply (proj1 (fetchDatabaseVersionRaw_asserts_non_null
                    (D := Fixture.dialectAnswering (JObj [("server_version", JStr "15.4")]))
                    None)
             (JObj [("server_version", JStr "15.4")]) eq_refl); discriminate.
Defined.

(** ** Enum types *)

Section EnumClaims.
Context {G : AbstractQueryGenerator}.

(** C6, as amended.  For every schema, enum name and value,
    [addValueToEnumQuery] returns an ALTER TYPE ... ADD VALUE IF NOT EXISTS
    statement.  With neither [before] nor [after] it has no positioning
    clause.  A [before] that is a non-empty string is applied and [after] is
    then ignored, not rejected.  An empty [before] counts as absent: a
    non-empty [after] is applied in that case. *)
Theorem addValueToEnumQuery_positioning
    (schemaName : string) (dataTypeOrName : DataTypeOrName) (value : string)
    (options : option (jsobject jsval)) :
  let enumName :=
    match dataTypeOrName with
    | ByName name => name
    | ByDataType dataType => toSql dataType
    end in
  let statement :=
    "ALTER TYPE  " ++ quoteIdentifier schemaName ++ "." ++ quoteIdentifier enumName
      ++ " ADD VALUE IF NOT EXISTS " ++ escape (JStr value) in
  (optProp options "before" = JUndefined -> optProp options "after" = JUndefined ->
   Postgres.addValueToEnumQuery schemaName dataTypeOrName value options = statement)
  /\ (forall b, optProp options "before" = JStr b -> b <> "" ->
      Postgres.addValueToEnumQuery schemaName dataTypeOrName value options
      = statement ++ " BEFORE " ++ escape (JStr b))
  /\ (forall a, truthy (optProp options "before") = false ->
      optProp options "after" = JStr a -> a <> "" ->
      Postgres.addValueToEnumQuery schemaName dataTypeOrName value options
      = statement ++ " AFTER " ++ escape (JStr a)).
Proof.
  intros enumName statement. unfold Postgres.addValueToEnumQuery.
  fold enumName. fold statement. split; [|split].
  - intros Hbefore Hafter. now rewrite Hbefore, Hafter.
  - intros b Hbefore Hb. rewrite Hbefore. simpl.
    apply String.eqb_neq in Hb. now rewrite Hb.
  - intros a Hbefore Hafter Ha. rewrite Hbefore, Hafter. simpl.
    apply String.eqb_neq in Ha. now rewrite Ha.
Qed.

(** C9.  For every table reference, [createEnumQuery] given a data type that
    is not an ENUM throws a TypeError at once and returns no SQL.  Given an
    ENUM it returns the statement that creates the type inside a DO block
    whose handler swallows [duplicate_object], preceded by the DROP TYPE
    statement when [force] is [true]. *)
Theorem createEnumQuery_requires_enum
    (tableOrModel : TableNameOrModel) (dataType : DataType)
    (options : option (jsobject jsval)) :
  ((forall enumValues, dataType <> ENUM enumValues) ->
   Postgres.createEnumQuery tableOrModel dataType options
   = Throw (TypeError "createEnumQuery expects an instance of the ENUM DataType")
   /\ forall sql, Postgres.createEnumQuery tableOrModel dataType options <> Ok sql)
  /\ (forall enumValues, dataType = ENUM enumValues ->
      let table := extractTableDetails tableOrModel in
      let members :=
        "ENUM(" ++ String.concat ", " (map (fun v => escape (JStr v)) enumValues) ++ ")" in
      let creation :=
        "DO " ++ escape (JStr ("BEGIN CREATE TYPE " ++ quoteIdentifier (schema table)
                                 ++ "." ++ quoteIdentifier (toSql dataType) ++ "  AS "
                                 ++ members
                                 ++ "; EXCEPTION WHEN duplicate_object THEN null; END"))
              ++ ";" in
      Postgres.createEnumQuery tableOrModel dataType options
      = Ok (if match optProp options "force" with JBool true => true | _ => false end
            then Postgres.dropEnumQuery (schema table) (ByDataType dataType) ++ creation
            else creation)).
Proof.
  split.
  - intros Hother.
    assert (Hthrow : Postgres.createEnumQuery tableOrModel dataType options
                     = Throw (TypeError "createEnumQuery expects an instance of the ENUM DataType")).
    { destruct dataType as [enumValues| |]; try reflexivity.
      now elim (Hother enumValues). }
    split; [exact Hthrow|]. intros sql Hsql. rewrite Hthrow in Hsql. discriminate.
  - intros enumValues -> table members creation. unfold Postgres.createEnumQuery.
    fold table. unfold creation, members.
    destruct (optProp options "force") as [| |[|]| | | |]; reflexivity.
Qed.

End EnumClaims.

(** With an empty [before] and an [after], both supplied, the statement is
    positioned AFTER: [before] is not the one applied. *)
Lemma addValueToEnumQuery_empty_before_uses_after :
  Postgres.addValueToEnumQuery (G := Fixture.postgres) "public" (ByName "mood") "calm"
    (Some [("before", JStr ""); ("after", JStr "sad")])
  = "ALTER TYPE  " ++ Fixture.quoteName "public" ++ "." ++ Fixture.quoteName "mood"
      ++ " ADD VALUE IF NOT EXISTS 'calm' AFTER 'sad'"
  /\ Postgres.addValueToEnumQuery (G := Fixture.postgres) "public" (ByName "mood") "calm"
       (Some [("before", JStr ""); ("after", JStr "sad")])
     <> "ALTER TYPE  " ++ Fixture.quoteName "public" ++ "." ++ Fixture.quoteName "mood"
          ++ " ADD VALUE IF NOT EXISTS 'calm' BEFORE ''".
Proof.
  split; [reflexivity | discriminate].
Qed.

Lemma addValueToEnumQuery_positioning_witness :
  Postgres.addValueToEnumQuery (G := Fixture.postgres) "public" (ByName "mood") "calm" None
  = "ALTER TYPE  " ++ Fixture.quoteName "public" ++ "." ++ Fixture.quoteName "mood"
      ++ " ADD VALUE IF NOT EXISTS 'calm'"
  /\ Postgres.addValueToEnumQuery (G := Fixture.postgres) "public" (ByName "mood") "calm"
       (Some [("before", JStr "happy"); ("after", JStr "sad")])
     = ("ALTER TYPE  " ++ Fixture.quoteName "public" ++ "." ++ Fixture.quoteName "mood"
          ++ " ADD VALUE IF NOT EXISTS 'calm'") ++ " BEFORE 'happy'"
  /\ Postgres.addValueToEnumQuery (G := Fixture.postgres) "public" (ByName "mood") "calm"
       (Some [("before", JStr ""); ("after", JStr "sad")])
     = ("ALTER TYPE  " ++ Fixture.quoteName "public" ++ "." ++ Fixture.quoteName "mood"
          ++ " ADD VALUE IF NOT EXISTS 'calm'") ++ " AFTER 'sad'".
Proof.
  split; [|split].
  - apply (addValueToEnumQuery_positioning (G := Fixture.postgres)
             "public" (ByName "mood") "calm" None); reflexivity.
  - apply (proj1 (proj2 (addValueToEnumQuery_positioning (G := Fixture.postgres)
             "public" (ByName "mood") "calm"
             (Some [("before", JStr "happy"); ("after", JStr "sad")])))
             "happy"); [reflexivity | discriminate].
  - apply (proj2 (proj2 (addValueToEnumQuery_positioning (G := Fixture.postgres)
             "public" (ByName "mood") "calm"
             (Some [("before", JStr ""); ("after", JStr "sad")])))
             "sad"); [reflexivity | reflexivity | discriminate].
Defined.

Lemma createEnumQuery_requires_enum_witness :
  Postgres.createEnumQuery (G := Fixture.postgres) (TableName "users")
    (ARRAY (ENUM ["on"; "off"])) None
  = Throw (TypeError "createEnumQuery expects an instance of the ENUM DataType")
  /\ Postgres.createEnumQuery (G := Fixture.postgres) (TableName "users")
       (ENUM ["on"; "off"]) (Some [("force", JBool true)])
     = Ok ("DROP TYPE IF EXISTS " ++ Fixture.quoteName "public" ++ "."
             ++ Fixture.quoteName "enum_new" ++ "; "
             ++ "DO 'BEGIN CREATE TYPE " ++ Fixture.quoteName "public" ++ "."
             ++ Fixture.quoteName "enum_new"
             ++ "  AS ENUM(''on'', ''off''); EXCEPTION WHEN duplicate_object THEN null; END';").
Proof.
  split.
  - apply (createEnumQuery_requires_enum (G := Fixture.postgres) (TableName "users")
             (ARRAY (ENUM ["on"; "off"])) None).
    discriminate.
  - apply (proj2 (createEnumQuery_requires_enum (G := Fixture.postgres)
                    (TableName "users") (ENUM ["on"; "off"])
                    (Some [("force", JBool true)]))
             ["on"; "off"] eq_refl).
Defined.

(** ** JSON path extraction *)

Section JsonPathClaims.
Context {U : Utils} {G : AbstractQueryGenerator}.

(** C7.  For every SQL expression and non-empty path, the PostgreSQL
    [jsonPathExtractionQuery] returns the expression as given, followed by an
    operator and the escaped path.  A path of one segment takes the accessor
    [->] (or [->>] to unquote) and the segment escaped as it is: a number as
    that number, a string as that string.  A longer path takes the path
    operator [#>] (or [#>>]) and is escaped as one array of strings, one for
    each segment in the order of the path: [String(n)] for the number [n],
    array indices included, and the string itself for a string. *)
Theorem jsonPathExtractionQuery_operator
    (sqlExpression : string) (path : list PathSegment) (unquote : bool) :
  path <> [] ->
  (forall segment, path = [segment] ->
     Postgres.jsonPathExtractionQuery sqlExpression path unquote
     = sqlExpression ++ (if unquote then "->>" else "->")
         ++ escape match segment with
                   | SegNumber n => JNum n
                   | SegString s => JStr s
                   end)
  /\ (2 <= length path ->
      exists segments,
        Postgres.jsonPathExtractionQuery sqlExpression path unquote
        = sqlExpression ++ (if unquote then "#>>" else "#>")
            ++ escape (JArr (map JStr segments))
        /\ Forall2 (fun segment text =>
                      match segment with
                      | SegNumber n => text = numberToString n
                      | SegString s => text = s
                      end)
                   path segments)
  /\ (length path = 1 \/ 2 <= length path).
Proof.
  intros Hnonempty. split; [|split].
  - intros segment ->. destruct segment; reflexivity.
  - intros Hlong. exists (map Postgres.segmentToString path). split.
    + unfold Postgres.jsonPathExtractionQuery.
      destruct (Nat.eqb_spec (length path) 1) as [Hone|_]; [lia|].
      now rewrite map_map.
    + clear. induction path as [|segment rest IH]; simpl; constructor.
      * destruct segment; reflexivity.
      * exact IH.
  - destruct path as [|segment [|second rest]]; simpl; [congruence | now left | right; lia].
Qed.

(** C8.  For every SQL expression and path, the two outputs of
    [jsonPathExtractionQuery], with and without [unquote], are the same
    extraction and differ by the unquoting alone.  PostgreSQL: the same
    expression and the same escaped path around one operator, [->] or [#>],
    to which unquoting adds a final [>].  MariaDB: one and the same
    [json_extract] call, wrapped in [json_unquote] when unquoting and in
    [json_compact] otherwise. *)
Theorem jsonPathExtractionQuery_unquote_only
    (sqlExpression : string) (path : list PathSegment) :
  (exists operator operand,
     (operator = "->" \/ operator = "#>")
     /\ Postgres.jsonPathExtractionQuery sqlExpression path false
        = sqlExpression ++ operator ++ operand
     /\ Postgres.jsonPathExtractionQuery sqlExpression path true
        = sqlExpression ++ (operator ++ ">") ++ operand)
  /\ (exists extraction,
        extraction = "json_extract(" ++ sqlExpression ++ ","
                       ++ escape (JStr (buildJsonPath path)) ++ ")"
        /\ MariaDb.jsonPathExtractionQuery sqlExpression path false
           = "json_compact(" ++ extraction ++ ")"
        /\ MariaDb.jsonPathExtractionQuery sqlExpression path true
           = "json_unquote(" ++ extraction ++ ")").
Proof.
  split.
  - unfold Postgres.jsonPathExtractionQuery.
    destruct (length path =? 1)%nat.
    + exists "->", (escape (nth 0 (map segmentValue path) JUndefined)).
      split; [now left | split; reflexivity].
    + exists "#>", (escape (JArr (map (fun value => JStr (Postgres.segmentToString value)) path))).
      split; [now right | split; reflexivity].
  - eexists. split; [reflexivity | split; reflexivity].
Qed.

End JsonPathClaims.

Lemma jsonPathExtractionQuery_operator_witness :
  Postgres.jsonPathExtractionQuery (U := Fixture.utils) (G := Fixture.postgres)
    "profile" [SegNumber 7] false
  = "profile" ++ "->" ++ "7"
  /\ Postgres.jsonPathExtractionQuery (U := Fixture.utils) (G := Fixture.postgres)
       "profile" [SegString "name"] true
     = "profile" ++ "->>" ++ "'name'"
  /\ Postgres.jsonPathExtractionQuery (U := Fixture.utils) (G := Fixture.postgres)
       "profile" [SegString "tags"; SegNumber 2; SegNumber 15] true
     = "profile" ++ "#>>" ++ "ARRAY['tags','2','15']".
Proof.
  split; [|split].
  - apply (proj1 (jsonPathExtractionQuery_operator (U := Fixture.utils)
                    (G := Fixture.postgres) "profile" [SegNumber 7] false
                    ltac:(discriminate))
             (SegNumber 7) eq_refl).
  - apply (proj1 (jsonPathExtractionQuery_operator (U := Fixture.utils)
                    (G := Fixture.postgres) "profile" [SegString "name"] true
                    ltac:(discriminate))
             (SegString "name") eq_refl).
  - destruct (proj1 (proj2 (jsonPathExtractionQuery_operator (U := Fixture.utils)
                              (G := Fixture.postgres) "profile"
                              [SegString "tags"; SegNumber 2; SegNumber 15] true
                              ltac:(discriminate))))
      as [segments [Hquery Hsegments]].
    + simpl. lia.
    + rewrite Hquery.
      inversion Hsegments as [|? first ? others Hfirst Hothers]; subst.
      inversion Hothers as [|? second ? others' Hsecond Hothers']; subst.
      inversion Hothers' as [|? third ? last Hthird Hlast]; subst.
      inversion Hlast; subst. reflexivity.
Defined.

(** ** Column changes *)

Lemma append_assoc (a b c : string) : (a ++ b) ++ c = a ++ b ++ c.
Proof.
  induction a as [|x a IH]; simpl; [reflexivity | now rewrite IH].
Qed.

Lemma hasNewline_append (a b : string) :
  hasNewline (a ++ b) = hasNewline a || hasNewline b.
Proof.
  induction a as [|x a IH]; simpl; [reflexivity|].
  rewrite IH. now rewrite orb_assoc.
Qed.

(** Joining with single spaces brings in no line feed. *)
Lemma hasNewline_join (statements : list string) :
  Forall (fun s => hasNewline s = false) statements ->
  hasNewline (String.concat " " statements) = false.
Proof.
  induction 1 as [|s rest Hs Hrest IH]; [reflexivity|].
  destruct rest as [|s' rest']; [exact Hs|].
  change (String.concat " " (s :: s' :: rest'))
    with (s ++ " " ++ String.concat " " (s' :: rest')).
  rewrite !hasNewline_append, Hs, IH. reflexivity.
Qed.

Section ChangeColumnsLoop.
Context {U : Utils} {G : AbstractQueryGenerator}.
Variable table : TableDetails.

(** One turn of the loop on a column that is not an array of enums. *)
Lemma changeColumn_shape out entry :
  isArrayOfEnum (snd entry) = false ->
  Postgres.changeColumn table out entry
  = Ok (unshiftedBy table entry ++ out ++ pushedBy table entry)%list.
Proof.
  destruct entry as [columnName [columnType columnComment auto]].
  unfold isArrayOfEnum, Postgres.changeColumn, unshiftedBy, pushedBy. simpl.
  intros Hplain.
  destruct columnType as [[enumValues|[| |]|key]|]; simpl in *; try discriminate;
    destruct columnComment as [[text|]|]; destruct auto as [[|]|]; simpl;
    rewrite <- ?app_assoc, ?app_nil_r; reflexivity.
Qed.

(** One turn of the loop on an array of enums: [createEnumQuery] is handed
    the array itself and refuses it. *)
Lemma changeColumn_array_of_enum out entry :
  isArrayOfEnum (snd entry) = true ->
  Postgres.changeColumn table out entry = Throw enumExpected.
Proof.
  destruct entry as [columnName [columnType columnComment auto]].
  unfold isArrayOfEnum, Postgres.changeColumn. simpl.
  destruct columnType as [[enumValues|[| |]|key]|]; simpl; try discriminate.
  reflexivity.
Qed.

Lemma changeColumn_total out entry :
  Postgres.changeColumn table out entry
  = if isArrayOfEnum (snd entry)
    then Throw enumExpected
    else Ok (unshiftedBy table entry ++ out ++ pushedBy table entry)%list.
Proof.
  destruct (isArrayOfEnum (snd entry)) eqn:E.
  - now apply changeColumn_array_of_enum.
  - now apply changeColumn_shape.
Qed.

(** The whole loop: the columns put their creations in front in reverse
    order and their comments and enum replacements behind in order. *)
Lemma changeColumns_loop_shape entries out :
  Forall (fun entry => isArrayOfEnum (snd entry) = false) entries ->
  forOf (Postgres.changeColumn table) entries out
  = Ok (flat_map (unshiftedBy table) (rev entries) ++ out
          ++ flat_map (pushedBy table) entries)%list.
Proof.
  intros Hplain. revert out.
  induction Hplain as [|entry rest Hentry Hrest IH]; intros out.
  - simpl. now rewrite app_nil_r.
  - simpl. rewrite changeColumn_shape by assumption. simpl. rewrite IH.
    rewrite flat_map_app. simpl. rewrite app_nil_r, <- !app_assoc. reflexivity.
Qed.

(** The loop is left by the TypeError as soon as it meets an array of enums. *)
Lemma changeColumns_loop_throws entries out :
  Exists (fun entry => isArrayOfEnum (snd entry) = true) entries ->
  forOf (Postgres.changeColumn table) entries out = Throw enumExpected.
Proof.
  intros Hsome. revert out.
  induction entries as [|entry rest IH]; intros out; [inversion Hsome|].
  simpl. rewrite changeColumn_total.
  destruct (isArrayOfEnum (snd entry)) eqn:E; [reflexivity|].
  simpl. apply IH. inversion Hsome; subst; [congruence | assumption].
Qed.

End ChangeColumnsLoop.

Lemma filter_flat_map_nil {A B : Type} (keep : B -> bool) (f : A -> list B) (l : list A) :
  (forall x, filter keep (f x) = []) -> filter keep (flat_map f l) = [].
Proof.
  intros Hnone. induction l as [|x l IH]; simpl; [reflexivity|].
  now rewrite filter_app, Hnone, IH.
Qed.


Lemma filter_none_Forall {A : Type} (keep : A -> bool) (l : list A) :
  filter keep l = [] -> Forall (fun x => keep x = false) l.
Proof.
  induction l as [|x l IH]; simpl; [constructor|].
  destruct (keep x) eqn:E; [discriminate|]. intros Hrest. constructor; auto.
Qed.

Section BatchParts.
Context {U : Utils} {G : AbstractQueryGenerator}.
Variable table : TableDetails.

Lemma unshiftedBy_no_comment entry :
  filter isCommentStatement (unshiftedBy table entry) = [].
Proof.
  destruct entry as [columnName [columnType columnComment auto]].
  unfold unshiftedBy. simpl.
  destruct columnType as [[enumValues|elementType|key]|];
    destruct auto as [[|]|]; reflexivity.
Qed.

Lemma pushedBy_no_sequence entry :
  filter isSequenceStatement (pushedBy table entry) = [].
Proof.
  destruct entry as [columnName [columnType columnComment auto]].
  unfold pushedBy. simpl.
  destruct columnType as [[enumValues|elementType|key]|];
    destruct columnComment as [[text|]|]; reflexivity.
Qed.


Lemma unshiftedBy_terminated entry :
  Forall terminated (unshiftedBy table entry).
Proof.
  destruct entry as [columnName [columnType columnComment auto]].
  unfold unshiftedBy. simpl.
  assert (Hsequence : terminated (Postgres.createSequence table columnName)).
  { eexists. left. unfold Postgres.createSequence.
    rewrite <- !append_assoc. reflexivity. }
  assert (Hcreated : forall enumValues,
    Forall terminated
      match Postgres.createEnumQuery (TableObject table) (ENUM enumValues) None with
      | Ok created => [created]
      | Throw _ => []
      end).
  { intros enumValues. simpl. constructor; [|constructor].
    match goal with
    | |- terminated (String _ (String _ (String _ (?block ++ ";")))) =>
        exists ("DO " ++ block); left; reflexivity
    end. }
  apply Forall_app. split.
  - destruct columnType as [[enumValues|elementType|key]|];
      solve [apply Hcreated | constructor].
  - destruct auto as [[|]|]; repeat constructor; exact Hsequence.
Qed.

Lemma pushedBy_terminated entry :
  Forall terminated (pushedBy table entry).
Proof.
  destruct entry as [columnName [columnType columnComment auto]].
  unfold pushedBy. simpl.
  assert (Hcomment : forall value,
    terminated (Postgres.commentOnColumn table columnName value)).
  { intros value. eexists. left. unfold Postgres.commentOnColumn.
    rewrite <- !append_assoc. reflexivity. }
  apply Forall_app. split.
  - destruct columnComment as [[text|]|]; repeat constructor; apply Hcomment.
  - destruct columnType as [[enumValues|elementType|key]|]; try solve [constructor].
    constructor; [|constructor; [|constructor]].
    + eexists. right. unfold Postgres.dropEnumQuery.
      rewrite <- !append_assoc. reflexivity.
    + eexists. left. unfold Postgres.renameEnum.
      rewrite <- !append_assoc. reflexivity.
Qed.

End BatchParts.

Section ChangeColumnsClaims.
Context {U : Utils} {G : AbstractQueryGenerator}.

Lemma normalized_entry columnDefinitions columnName attribute :
  In (columnName, attribute) columnDefinitions ->
  In (columnName, normalizeChangeColumnAttribute attribute)
     (mapValues columnDefinitions normalizeChangeColumnAttribute).
Proof.
  intros Hin. unfold mapValues.
  apply (in_map (fun kv => (fst kv, normalizeChangeColumnAttribute (snd kv))) _ _ Hin).
Qed.

Lemma normalized_entries_plain columnDefinitions :
  (forall columnName attribute enumValues,
     In (columnName, attribute) columnDefinitions ->
     type (normalizeChangeColumnAttribute attribute) <> Some (ARRAY (ENUM enumValues))) ->
  Forall (fun entry => isArrayOfEnum (snd entry) = false)
         (mapValues columnDefinitions normalizeChangeColumnAttribute).
Proof.
  intros Hplain. unfold mapValues. apply Forall_map, Forall_forall.
  intros [columnName attribute] Hin. simpl. unfold isArrayOfEnum.
  specialize (Hplain columnName attribute).
  destruct (type (normalizeChangeColumnAttribute attribute))
    as [[enumValues|[enumValues| |]|key]|]; try reflexivity.
  now elim (Hplain enumValues Hin).
Qed.

(** The array [out] for a mapping without arrays of enums: creations, the
    ALTER TABLE statement unless it is empty, comments and enum replacements. *)
Lemma changeColumnsStatements_shape tableOrModel columnDefinitions :
  (forall columnName attribute enumValues,
     In (columnName, attribute) columnDefinitions ->
     type (normalizeChangeColumnAttribute attribute) <> Some (ARRAY (ENUM enumValues))) ->
  let table := extractTableDetails tableOrModel in
  let sql := abstractChangeColumnsQuery tableOrModel columnDefinitions in
  let entries := mapValues columnDefinitions normalizeChangeColumnAttribute in
  Postgres.changeColumnsStatements tableOrModel columnDefinitions
  = Ok (flat_map (unshiftedBy table) (rev entries)
          ++ (if sql =? "" then [] else [sql])
          ++ flat_map (pushedBy table) entries)%list.
Proof.
  intros Hplain table sql entries. unfold Postgres.changeColumnsStatements.
  apply changeColumns_loop_shape. now apply normalized_entries_plain.
Qed.

(** C3.  A column whose new type is an array of enums makes the PostgreSQL
    [changeColumnsQuery] throw: its enum branch hands the array itself to
    [createEnumQuery], which accepts enums only.  No statement is returned
    for such a mapping, neither the enum creation nor the ALTER TABLE
    statement nor the replacement of the old enum. *)
Theorem changeColumnsQuery_array_of_enum_throws
    (tableOrModel : TableNameOrModel) (columnDefinitions : ChangeColumnDefinitions)
    (columnName : string) (attribute : ChangeColumnAttribute)
    (enumValues : list string) :
  In (columnName, attribute) columnDefinitions ->
  type (normalizeChangeColumnAttribute attribute) = Some (ARRAY (ENUM enumValues)) ->
  Postgres.changeColumnsQuery tableOrModel columnDefinitions
  = Throw (TypeError "createEnumQuery expects an instance of the ENUM DataType")
  /\ Postgres.createEnumQuery (TableObject (extractTableDetails tableOrModel))
       (ARRAY (ENUM enumValues)) None
     = Throw (TypeError "createEnumQuery expects an instance of the ENUM DataType").
Proof.
  intros Hin Htype. split; [|reflexivity].
  unfold Postgres.changeColumnsQuery, Postgres.changeColumnsStatements.
  rewrite changeColumns_loop_throws; [reflexivity|].
  apply Exists_exists.
  exists (columnName, normalizeChangeColumnAttribute attribute). split.
  - now apply normalized_entry.
  - unfold isArrayOfEnum. simpl. now rewrite Htype.
Qed.

(** For a column whose new type is an enum, in a mapping without arrays of
    enums, the batch holds in this order: the creation of the enum, the
    ALTER TABLE statement, the removal of the old enum and the renaming of
    the replacement to the enum's name. *)
Theorem changeColumnsQuery_enum_statements_in_order
    (tableOrModel : TableNameOrModel) (columnDefinitions : ChangeColumnDefinitions)
    (columnName : string) (attribute : ChangeColumnAttribute)
    (enumValues : list string) :
  (forall c a vs, In (c, a) columnDefinitions ->
     type (normalizeChangeColumnAttribute a) <> Some (ARRAY (ENUM vs))) ->
  In (columnName, attribute) columnDefinitions ->
  type (normalizeChangeColumnAttribute attribute) = Some (ENUM enumValues) ->
  let table := extractTableDetails tableOrModel in
  let sql := abstractChangeColumnsQuery tableOrModel columnDefinitions in
  exists created l1 l2 l3 l4,
    Postgres.createEnumQuery (TableObject table) (ENUM enumValues) None = Ok created
    /\ Postgres.changeColumnsStatements tableOrModel columnDefinitions
       = Ok (l1 ++ [created] ++ l2 ++ (if sql =? "" then [] else [sql]) ++ l3
               ++ [ Postgres.dropEnumQuery (schema table)
                      (ByName (generateEnumName (tableName table) columnName false));
                    ("ALTER TYPE " ++ quoteIdentifier (schema table) ++ "."
                      ++ quoteIdentifier (generateEnumName (tableName table) columnName true)
                      ++ " RENAME TO "
                      ++ quoteIdentifier (generateEnumName (tableName table) columnName false)
                      ++ ";")%string ]
               ++ l4)%list.
Proof.
  intros Hplain Hin Htype table sql.
  rewrite (changeColumnsStatements_shape tableOrModel columnDefinitions Hplain).
  fold table. fold sql.
  destruct (in_split _ _ (normalized_entry _ _ _ Hin)) as [earlier [later Hsplit]].
  rewrite Hsplit, rev_app_distr. simpl rev.
  rewrite !flat_map_app. simpl flat_map.
  unfold unshiftedBy at 2. unfold pushedBy at 2. simpl fst. simpl snd.
  rewrite Htype.
  assert (Hcreated : exists created,
    Postgres.createEnumQuery (TableObject table) (ENUM enumValues) None = Ok created)
    by (simpl; eauto).
  destruct Hcreated as [created Hcreated]. rewrite Hcreated.
  exists created, (flat_map (unshiftedBy table) (rev later)),
    (match autoIncrement (normalizeChangeColumnAttribute attribute) with
     | Some true => [Postgres.createSequence table columnName]
     | _ => []
     end ++ flat_map (unshiftedBy table) (rev earlier))%list,
    (flat_map (pushedBy table) earlier
     ++ match comment (normalizeChangeColumnAttribute attribute) with
        | Some (Some text) =>
            [Postgres.commentOnColumn table columnName (escape (JStr text))]
        | Some None => [Postgres.commentOnColumn table columnName "NULL"]
        | None => []
        end)%list,
    (flat_map (pushedBy table) later).
  split; [reflexivity|]. f_equal.
  rewrite app_nil_r, <- !app_assoc. reflexivity.
Qed.

End ChangeColumnsClaims.

Section ChangeColumnsBatch.
Context {U : Utils} {G : AbstractQueryGenerator}.

(** C4, as amended.  For every column-definition mapping without a column
    that is an array of enums, the PostgreSQL [changeColumnsQuery] returns one
    string: the statements joined by single spaces, so that no line feed
    comes in beyond those of the statements themselves.  The statements put
    before the ALTER TABLE statement hold every sequence creation and no
    comment; those put behind it hold every comment and no sequence creation.
    For every column whose auto-increment flag is set the batch contains
    CREATE SEQUENCE IF NOT EXISTS ... OWNED BY the table's column.  Every
    statement around the ALTER TABLE statement ends with the terminator. *)
Theorem changeColumnsQuery_batch_order
    (tableOrModel : TableNameOrModel) (columnDefinitions : ChangeColumnDefinitions) :
  (forall columnName attribute enumValues,
     In (columnName, attribute) columnDefinitions ->
     type (normalizeChangeColumnAttribute attribute) <> Some (ARRAY (ENUM enumValues))) ->
  let table := extractTableDetails tableOrModel in
  let sql := abstractChangeColumnsQuery tableOrModel columnDefinitions in
  let alter := if sql =? "" then [] else [sql] in
  exists before after : list string,
    Postgres.changeColumnsQuery tableOrModel columnDefinitions
    = Ok (String.concat " " (before ++ alter ++ after))
    /\ Forall (fun s => isCommentStatement s = false) before
    /\ Forall (fun s => isSequenceStatement s = false) after
    /\ (forall columnName attribute,
          In (columnName, attribute) columnDefinitions ->
          autoIncrement (normalizeChangeColumnAttribute attribute) = Some true ->
          In ("CREATE SEQUENCE IF NOT EXISTS "
                ++ quoteIdentifier (generateSequenceName (tableName table) columnName)
                ++ " OWNED BY " ++ quoteTable (TableObject table) ++ "."
                ++ quoteIdentifier columnName ++ ";")%string
             before)
    /\ (forall columnName attribute text,
          In (columnName, attribute) columnDefinitions ->
          comment (normalizeChangeColumnAttribute attribute) = Some text ->
          In ("COMMENT ON COLUMN " ++ quoteTable (TableObject table) ++ "."
                ++ quoteIdentifier columnName ++ " IS "
                ++ match text with
                   | Some words => escape (JStr words)
                   | None => "NULL"
                   end
                ++ ";")%string
             after)
    /\ Forall terminated (before ++ after)
    /\ (Forall (fun s => hasNewline s = false) (before ++ alter ++ after) ->
        hasNewline (String.concat " " (before ++ alter ++ after)) = false).
Proof.
  intros Hplain table sql alter.
  set (entries := mapValues columnDefinitions normalizeChangeColumnAttribute).
  exists (flat_map (unshiftedBy table) (rev entries)),
         (flat_map (pushedBy table) entries).
  split; [|split; [|split; [|split; [|split; [|split]]]]].
  - unfold Postgres.changeColumnsQuery.
    now rewrite (changeColumnsStatements_shape tableOrModel columnDefinitions Hplain).
  - apply filter_none_Forall, filter_flat_map_nil. apply unshiftedBy_no_comment.
  - apply filter_none_Forall, filter_flat_map_nil. apply pushedBy_no_sequence.
  - intros columnName attribute Hin Hauto. apply in_flat_map.
    exists (columnName, normalizeChangeColumnAttribute attribute). split.
    + apply -> in_rev. now apply normalized_entry.
    + unfold unshiftedBy. apply in_or_app. right. simpl. rewrite Hauto. now left.
  - intros columnName attribute text Hin Hcomment. apply in_flat_map.
    exists (columnName, normalizeChangeColumnAttribute attribute). split.
    + now apply normalized_entry.
    + unfold pushedBy. apply in_or_app. left. simpl. rewrite Hcomment.
      destruct text as [words|]; now left.
  - apply Forall_app. split; apply Forall_flat_map, Forall_forall; intros entry _.
    + apply unshiftedBy_terminated.
    + apply pushedBy_terminated.
  - apply hasNewline_join.
Qed.


End ChangeColumnsBatch.

Lemma changeColumnsQuery_array_of_enum_throws_witness :
  Postgres.changeColumnsQuery (U := Fixture.utils) (G := Fixture.postgres)
    (TableName "users") [("roles", AttrDataType (ARRAY (ENUM ["admin"; "guest"])))]
  = Throw (TypeError "createEnumQuery expects an instance of the ENUM DataType").
Proof.
  apply (proj1 (changeColumnsQuery_array_of_enum_throws
                  (U := Fixture.utils) (G := Fixture.postgres) (TableName "users")
                  [("roles", AttrDataType (ARRAY (ENUM ["admin"; "guest"])))]
                  "roles" (AttrDataType (ARRAY (ENUM ["admin"; "guest"])))
                  ["admin"; "guest"] (or_introl eq_refl) eq_refl)).
Defined.

(** Two mappings for which [changeColumnsQuery] does not return a string
    free of line feeds: with an array of enums nothing is returned, and a
    comment of two lines is passed on as it is. *)
Lemma changeColumnsQuery_no_newline_free_string :
  Postgres.changeColumnsQuery (U := Fixture.utils) (G := Fixture.postgres)
    (TableName "users") [("roles", AttrDataType (ARRAY (ENUM ["admin"; "guest"])))]
  = Throw (TypeError "createEnumQuery expects an instance of the ENUM DataType")
  /\ exists batch,
       Postgres.changeColumnsQuery (U := Fixture.utils) (G := Fixture.postgres)
         (TableName "users")
         [("bio", AttrDefinition
                    (mkColumn None (Some (Some ("first line" ++ Fixture.newline ++ "second line")))
                       None))]
       = Ok batch
       /\ hasNewline batch = true.
Proof.
  split; [reflexivity|]. eexists. split; reflexivity.
Qed.

Lemma changeColumnsQuery_batch_order_witness :
  exists before after,
    Postgres.changeColumnsQuery (U := Fixture.utils) (G := Fixture.postgres)
      (TableName "users")
      [("id", AttrDefinition (mkColumn None (Some (Some "primary key")) (Some true)))]
    = Ok (String.concat " "
            (before
               ++ [Fixture.alterTable (TableName "users")
                     [("id", AttrDefinition
                               (mkColumn None (Some (Some "primary key")) (Some true)))]]
               ++ after))
    /\ In ("CREATE SEQUENCE IF NOT EXISTS " ++ Fixture.quoteName "users_id_seq"
             ++ " OWNED BY " ++ Fixture.quoteResolved (TableName "users") ++ "."
             ++ Fixture.quoteName "id" ++ ";")%string
          before
    /\ In ("COMMENT ON COLUMN " ++ Fixture.quoteResolved (TableName "users") ++ "."
             ++ Fixture.quoteName "id" ++ " IS 'primary key';")%string
          after.
Proof.
  destruct (changeColumnsQuery_batch_order
              (U := Fixture.utils) (G := Fixture.postgres) (TableName "users")
              [("id", AttrDefinition (mkColumn None (Some (Some "primary key")) (Some true)))])
    as [before [after [Hbatch [_ [_ [Hsequence [Hcomment _]]]]]]].
  - intros columnName attribute enumValues [Hentry|[]].
    inversion Hentry; subst. discriminate.
  - exists before, after. split; [exact Hbatch | split].
    + apply (Hsequence "id" _ (or_introl eq_refl) eq_refl).
    + apply (Hcomment "id" _ (Some "primary key") (or_introl eq_refl) eq_refl).
Defined.



(** The two behaviours on one column: with the key set to [null] the
    comment is cleared, without the key nothing is said about it. *)
Example changeColumnsQuery_comment_null_and_absent :
  Postgres.changeColumnsQuery (U := Fixture.utils) (G := Fixture.postgres)
    (TableName "users") [("bio", AttrDefinition (mkColumn None (Some None) None))]
  = Ok ("ALTER TABLE " ++ Fixture.quoteResolved (TableName "users") ++ " ALTER COLUMN "
          ++ Fixture.quoteName "bio" ++ "; COMMENT ON COLUMN "
          ++ Fixture.quoteResolved (TableName "users") ++ "." ++ Fixture.quoteName "bio"
          ++ " IS NULL;")
  /\ Postgres.changeColumnsQuery (U := Fixture.utils) (G := Fixture.postgres)
       (TableName "users") [("bio", AttrDefinition (mkColumn None None None))]
     = Ok ("ALTER TABLE " ++ Fixture.quoteResolved (TableName "users") ++ " ALTER COLUMN "
             ++ Fixture.quoteName "bio" ++ ";").
Proof.
  split; reflexivity.
Qed.

(** * Further properties of the generators *)

(** ** Index removal and enum creation *)

Section RemoveIndexMore.
Context {U : Utils} {G : AbstractQueryGenerator}.

(** X1.  The PostgreSQL [removeIndexQuery] throws exactly when [cascade] and
    [concurrently] are both truthy, booleans or not; in every other case,
    without options in particular, it returns SQL. *)
Theorem postgres_removeIndexQuery_rejects_iff
    (tableRef : TableNameOrModel) (index : IndexNameOrAttributes)
    (options : option (jsobject jsval)) :
  (exists e, Postgres.removeIndexQuery tableRef index options = Throw e)
  <-> truthy (optProp options "cascade") = true
      /\ truthy (optProp options "concurrently") = true.
Proof.
  unfold Postgres.removeIndexQuery. split.
  - intros [e He].
    destruct (truthy (optProp options "cascade"));
      destruct (truthy (optProp options "concurrently")); simpl in He;
      try discriminate. now split.
  - intros [Hcascade Hconcurrently]. rewrite Hcascade, Hconcurrently. simpl. eauto.
Qed.

(** X2.  In both dialects, [removeIndexQuery] given a list of columns gives
    what it gives for the index name generated from the resolved table and
    these columns, SQL or error. *)
Theorem removeIndexQuery_attributes_use_generated_name
    (tableRef : TableNameOrModel) (fields : list string)
    (options : option (jsobject jsval)) :
  Postgres.removeIndexQuery tableRef (IndexAttributes fields) options
  = Postgres.removeIndexQuery tableRef
      (IndexName (generateIndexName (extractTableDetails tableRef) fields)) options
  /\ MariaDb.removeIndexQuery tableRef (IndexAttributes fields) options
     = MariaDb.removeIndexQuery tableRef
         (IndexName (generateIndexName (extractTableDetails tableRef) fields)) options.
Proof.
  split; reflexivity.
Qed.

(** X3.  [createEnumQuery] with [force] set to the boolean [true] gives the
    DROP TYPE statement of the same type followed at once by what the call
    gives without options, and throws when that call throws.  Any other
    [force], truthy values such as 1 included, changes nothing. *)
Theorem createEnumQuery_force
    (tableRef : TableNameOrModel) (dataType : DataType)
    (options : option (jsobject jsval)) :
  (optProp options "force" = JBool true ->
   Postgres.createEnumQuery tableRef dataType options
   = (creation <- Postgres.createEnumQuery tableRef dataType None ;;
      Ok (Postgres.dropEnumQuery (schema (extractTableDetails tableRef))
            (ByDataType dataType) ++ creation)))
  /\ (optProp options "force" <> JBool true ->
      Postgres.createEnumQuery tableRef dataType options
      = Postgres.createEnumQuery tableRef dataType None).
Proof.
  split.
  - intros Hforce. destruct dataType as [enumValues|elementType|key]; try reflexivity.
    unfold Postgres.createEnumQuery. rewrite Hforce. reflexivity.
  - intros Hforce. destruct dataType as [enumValues|elementType|key]; try reflexivity.
    unfold Postgres.createEnumQuery.
    destruct (optProp options "force") as [| |[|]| | | |]; try reflexivity.
    now elim Hforce.
Qed.

(** X4.  The PostgreSQL statements built for a table see the reference
    through [extractTableDetails] alone: two references that resolve to the
    same table and schema give the same SQL for describing the table, for
    showing its constraints and indexes, for removing an index and for
    creating an enum. *)
Theorem postgres_queries_depend_on_resolved_table
    (first second : TableNameOrModel) :
  extractTableDetails first = extractTableDetails second ->
  PostgresCatalog.describeTableQuery first = PostgresCatalog.describeTableQuery second
  /\ PostgresCatalog.showIndexesQuery first = PostgresCatalog.showIndexesQuery second
  /\ (forall options,
        PostgresCatalog.showConstraintsQuery first options
        = PostgresCatalog.showConstraintsQuery second options)
  /\ (forall index options,
        Postgres.removeIndexQuery first index options
        = Postgres.removeIndexQuery second index options)
  /\ (forall dataType options,
        Postgres.createEnumQuery first dataType options
        = Postgres.createEnumQuery second dataType options).
Proof.
  intros Hsame.
  unfold PostgresCatalog.describeTableQuery, PostgresCatalog.showIndexesQuery,
    PostgresCatalog.showConstraintsQuery, Postgres.removeIndexQuery,
    Postgres.createEnumQuery.
  rewrite Hsame. repeat split; reflexivity.
Qed.

(** X5.  In both dialects, [showConstraintsQuery] reads one key of its
    options, [constraintName]: options that agree on it give the same SQL,
    and a name that is missing or empty gives the SQL of the call without
    options, with no filter on the constraint name. *)
Theorem showConstraintsQuery_reads_constraintName
    (tableRef : TableNameOrModel) (options others : option (jsobject jsval)) :
  (optProp options "constraintName" = optProp others "constraintName" ->
   PostgresCatalog.showConstraintsQuery tableRef options
   = PostgresCatalog.showConstraintsQuery tableRef others
   /\ MariaDbCatalog.showConstraintsQuery tableRef options
      = MariaDbCatalog.showConstraintsQuery tableRef others)
  /\ (truthy (optProp options "constraintName") = false ->
      PostgresCatalog.showConstraintsQuery tableRef options
      = PostgresCatalog.showConstraintsQuery tableRef None
      /\ MariaDbCatalog.showConstraintsQuery tableRef options
         = MariaDbCatalog.showConstraintsQuery tableRef None).
Proof.
  split.
  - intros Hsame.
    unfold PostgresCatalog.showConstraintsQuery, MariaDbCatalog.showConstraintsQuery.
    rewrite Hsame. split; reflexivity.
  - intros Hfalsy.
    unfold PostgresCatalog.showConstraintsQuery, MariaDbCatalog.showConstraintsQuery.
    rewrite Hfalsy. split; reflexivity.
Qed.

End RemoveIndexMore.

Lemma postgres_removeIndexQuery_rejects_iff_witness :
  (exists e,
     Postgres.removeIndexQuery (U := Fixture.utils) (G := Fixture.postgres)
       (TableName "users") (IndexName "users_email")
       (Some [("cascade", JNum 1); ("concurrently", JStr "yes")]) = Throw e)
  /\ ~ (exists e,
          Postgres.removeIndexQuery (U := Fixture.utils) (G := Fixture.postgres)
            (TableName "users") (IndexName "users_email")
            (Some [("cascade", JBool true); ("concurrently", JNum 0)]) = Throw e).
Proof.
  split.
  - apply (proj2 (postgres_removeIndexQuery_rejects_iff
                    (U := Fixture.utils) (G := Fixture.postgres) (TableName "users")
                    (IndexName "users_email")
                    (Some [("cascade", JNum 1); ("concurrently", JStr "yes")]))).
    split; reflexivity.
  - intros Hthrown.
    apply (proj1 (postgres_removeIndexQuery_rejects_iff
                    (U := Fixture.utils) (G := Fixture.postgres) (TableName "users")
                    (IndexName "users_email")
                    (Some [("cascade", JBool true); ("concurrently", JNum 0)])))
      in Hthrown.
    destruct Hthrown as [_ Hconcurrently]. discriminate.
Defined.

Lemma createEnumQuery_force_witness :
  Postgres.createEnumQuery (G := Fixture.postgres) (TableName "users")
    (ENUM ["on"; "off"]) (Some [("force", JNum 1)])
  = Postgres.createEnumQuery (G := Fixture.postgres) (TableName "users")
      (ENUM ["on"; "off"]) None
  /\ Postgres.createEnumQuery (G := Fixture.postgres) (TableName "users")
       (ENUM ["on"; "off"]) (Some [("force", JBool true)])
     = (creation <- Postgres.createEnumQuery (G := Fixture.postgres) (TableName "users")
                      (ENUM ["on"; "off"]) None ;;
        Ok (Postgres.dropEnumQuery (G := Fixture.postgres) "public"
              (ByDataType (ENUM ["on"; "off"])) ++ creation)).
Proof.
  split.
  - apply (proj2 (createEnumQuery_force (G := Fixture.postgres) (TableName "users")
                    (ENUM ["on"; "off"]) (Some [("force", JNum 1)]))).
    discriminate.
  - apply (proj1 (createEnumQuery_force (G := Fixture.postgres) (TableName "users")
                    (ENUM ["on"; "off"]) (Some [("force", JBool true)]))).
    reflexivity.
Defined.

Lemma postgres_queries_depend_on_resolved_table_witness :
  PostgresCatalog.describeTableQuery (U := Fixture.utils) (G := Fixture.postgres)
    (TableName "users")
  = PostgresCatalog.describeTableQuery (U := Fixture.utils) (G := Fixture.postgres)
      (TableObject (mkTable "users" "public"))
  /\ PostgresCatalog.showIndexesQuery (U := Fixture.utils) (G := Fixture.postgres)
       (Model "users")
     = PostgresCatalog.showIndexesQuery (U := Fixture.utils) (G := Fixture.postgres)
         (TableObject (mkTable "users" "public")).
Proof.
  split.
  - apply (postgres_queries_depend_on_resolved_table
             (U := Fixture.utils) (G := Fixture.postgres)
             (TableName "users") (TableObject (mkTable "users" "public"))).
    reflexivity.
  - apply (postgres_queries_depend_on_resolved_table
             (U := Fixture.utils) (G := Fixture.postgres)
             (Model "users") (TableObject (mkTable "users" "public"))).
    reflexivity.
Defined.

Lemma showConstraintsQuery_reads_constraintName_witness :
  PostgresCatalog.showConstraintsQuery (U := Fixture.utils) (G := Fixture.postgres)
    (TableName "users") (Some [("constraintName", JStr ""); ("columnName", JStr "email")])
  = PostgresCatalog.showConstraintsQuery (U := Fixture.utils) (G := Fixture.postgres)
      (TableName "users") None
  /\ MariaDbCatalog.showConstraintsQuery (U := Fixture.utils) (G := Fixture.mariadb)
       (TableName "users")
       (Some [("constraintType", JStr "UNIQUE"); ("constraintName", JStr "users_pkey")])
     = MariaDbCatalog.showConstraintsQuery (U := Fixture.utils) (G := Fixture.mariadb)
         (TableName "users") (Some [("constraintName", JStr "users_pkey")]).
Proof.
  split.
  - apply (proj2 (showConstraintsQuery_reads_constraintName
                    (U := Fixture.utils) (G := Fixture.postgres) (TableName "users")
                    (Some [("constraintName", JStr ""); ("columnName", JStr "email")])
                    None)).
    reflexivity.
  - apply (proj1 (showConstraintsQuery_reads_constraintName
                    (U := Fixture.utils) (G := Fixture.mariadb) (TableName "users")
                    (Some [("constraintType", JStr "UNIQUE");
                           ("constraintName", JStr "users_pkey")])
                    (Some [("constraintName", JStr "users_pkey")]))).
    reflexivity.
Defined.

(** ** Listing enums *)

Section ListEnums.
Import PostgresCatalog.
Context {G : AbstractQueryGenerator} {S : GeneratorSettings}.

(** X6.  [listEnumsQuery] filters on the first schema that is a non-empty
    string among the one of its options, the one of the generator's options
    and the dialect's default; it adds the filter on the type name only for
    a non-empty name, given as such or as a data type's SQL name, and
    otherwise lists every enum of the schema. *)
Theorem listEnumsQuery_schema_and_name (options : option ListEnumQueryOptions) :
  let requestedSchema :=
    match options with Some given => enumSchema given | None => None end in
  let requested :=
    match options with Some given => dataTypeOrName given | None => None end in
  let enumName :=
    match requested with
    | None => ""
    | Some (ByName name) => name
    | Some (ByDataType dataType) => toSql dataType
    end in
  exists schemaName,
    (enumName = "" ->
     listEnumsQuery options
     = "SELECT t.typname enum_name, array_agg(e.enumlabel ORDER BY enumsortorder) enum_value FROM pg_type t JOIN pg_enum name ON t.oid = e.enumtypid JOIN pg_catalog.pg_namespace schema ON n.oid = t.typnamespace WHERE n.nspname = "
         ++ escape (JStr schemaName) ++ " GROUP BY 1")
    /\ (enumName <> "" ->
        listEnumsQuery options
        = "SELECT t.typname enum_name, array_agg(e.enumlabel ORDER BY enumsortorder) enum_value FROM pg_type t JOIN pg_enum name ON t.oid = e.enumtypid JOIN pg_catalog.pg_namespace schema ON n.oid = t.typnamespace WHERE n.nspname = "
            ++ escape (JStr schemaName) ++ " AND t.typname=" ++ escape (JStr enumName)
            ++ " GROUP BY 1")
    /\ (forall text, requestedSchema = Some text -> text <> "" -> schemaName = text)
    /\ (requestedSchema = None \/ requestedSchema = Some "" ->
        (forall text, optionsSchema = Some text -> text <> "" -> schemaName = text)
        /\ (optionsSchema = None \/ optionsSchema = Some "" ->
            schemaName = getDefaultSchema)).
Proof.
  intros requestedSchema requested enumName.
  exists (orElse requestedSchema (orElse optionsSchema getDefaultSchema)).
  assert (Hname :
    match requested with
    | None => ""
    | Some (ByName name) => if name =? "" then "" else name
    | Some (ByDataType dataType) => toSql dataType
    end = enumName).
  { unfold enumName. destruct requested as [[name|dataType]|]; try reflexivity.
    destruct (String.eqb_spec name ""); congruence. }
  split; [|split; [|split]].
  - intros Hempty. unfold listEnumsQuery. fold requested. rewrite Hname, Hempty.
    reflexivity.
  - intros Hnamed. unfold listEnumsQuery. fold requested. rewrite Hname.
    apply String.eqb_neq in Hnamed. rewrite Hnamed. reflexivity.
  - intros text -> Htext. simpl. apply String.eqb_neq in Htext. now rewrite Htext.
  - intros Hrequested.
    assert (Hfallback : orElse requestedSchema (orElse optionsSchema getDefaultSchema)
                        = orElse optionsSchema getDefaultSchema)
      by (destruct Hrequested as [-> | ->]; reflexivity).
    rewrite Hfallback. split.
    + intros text -> Htext. simpl. apply String.eqb_neq in Htext. now rewrite Htext.
    + intros [-> | ->]; reflexivity.
Qed.

End ListEnums.

Lemma listEnumsQuery_schema_and_name_witness :
  PostgresCatalog.listEnumsQuery (G := Fixture.postgres) (S := publicSettings)
    (Some (PostgresCatalog.mkListEnumQueryOptions (Some "") (Some (ByName ""))))
  = PostgresCatalog.listEnumsQuery (G := Fixture.postgres) (S := publicSettings) None
  /\ PostgresCatalog.listEnumsQuery (G := Fixture.postgres) (S := publicSettings)
       (Some (PostgresCatalog.mkListEnumQueryOptions (Some "audit") (Some (ByName "mood"))))
     = "SELECT t.typname enum_name, array_agg(e.enumlabel ORDER BY enumsortorder) enum_value FROM pg_type t JOIN pg_enum name ON t.oid = e.enumtypid JOIN pg_catalog.pg_namespace schema ON n.oid = t.typnamespace WHERE n.nspname = 'audit' AND t.typname='mood' GROUP BY 1".
Proof.
  destruct (listEnumsQuery_schema_and_name (G := Fixture.postgres) (S := publicSettings)
              (Some (PostgresCatalog.mkListEnumQueryOptions (Some "") (Some (ByName "")))))
    as [emptySchema [Hempty _]].
  destruct (listEnumsQuery_schema_and_name (G := Fixture.postgres) (S := publicSettings)
              (Some (PostgresCatalog.mkListEnumQueryOptions (Some "audit")
                       (Some (ByName "mood")))))
    as [auditSchema [_ [Hnamed [Hschema _]]]].
  split.
  - reflexivity.
  - rewrite (Hnamed ltac:(discriminate)).
    rewrite (Hschema "audit" eq_refl ltac:(discriminate)). reflexivity.
Defined.

(** ** JSON path extraction, with and without unquoting *)

Lemma append_cancel_l (a b c : string) : a ++ b = a ++ c -> b = c.
Proof.
  induction a as [|x a IH]; simpl; [trivial|].
  intros Heq. injection Heq as Heq. now apply IH.
Qed.

Lemma string_not_own_tail (c : ascii) (s : string) : String c s <> s.
Proof.
  intros Heq. apply (f_equal String.length) in Heq. simpl in Heq. lia.
Qed.

Section JsonUnquote.
Context {U : Utils} {G : AbstractQueryGenerator}.

(** X7.  In both dialects the unquote flag always changes the output of
    [jsonPathExtractionQuery]: for no expression and no path, the empty one
    included, do the two queries coincide. *)
Theorem jsonPathExtractionQuery_unquote_changes_output
    (sqlExpression : string) (path : list PathSegment) :
  Postgres.jsonPathExtractionQuery sqlExpression path true
  <> Postgres.jsonPathExtractionQuery sqlExpression path false
  /\ MariaDb.jsonPathExtractionQuery sqlExpression path true
     <> MariaDb.jsonPathExtractionQuery sqlExpression path false.
Proof.
  split.
  - unfold Postgres.jsonPathExtractionQuery.
    destruct (length path =? 1)%nat; intros Heq;
      apply append_cancel_l in Heq; simpl in Heq;
      injection Heq as Heq; now apply string_not_own_tail in Heq.
  - unfold MariaDb.jsonPathExtractionQuery. simpl. discriminate.
Qed.

End JsonUnquote.

(** ** Column changes: what is thrown, how many statements, in which order *)

Lemma append_empty_r (s : string) : s ++ "" = s.
Proof.
  induction s as [|c s IH]; simpl; [reflexivity | now rewrite IH].
Qed.

Lemma concat_cons (x : string) (rest : list string) :
  String.concat " " (x :: rest) = x ++ joinedAfter rest.
Proof.
  destruct rest as [|y rest]; simpl; [now rewrite append_empty_r | reflexivity].
Qed.

Lemma joinedAfter_app_cons (front : list string) (x : string) (rest : list string) :
  exists between, joinedAfter (front ++ x :: rest) = between ++ x ++ joinedAfter rest.
Proof.
  induction front as [|y front IH].
  - exists " ". simpl app. unfold joinedAfter at 1. now rewrite concat_cons.
  - destruct IH as [between IH]. exists (" " ++ y ++ between).
    change ((y :: front) ++ x :: rest)%list with (y :: (front ++ x :: rest))%list.
    unfold joinedAfter at 1. rewrite concat_cons, IH.
    now rewrite !append_assoc.
Qed.

Lemma concat_app_cons (front : list string) (x : string) (rest : list string) :
  exists before, String.concat " " (front ++ x :: rest) = before ++ x ++ joinedAfter rest.
Proof.
  destruct front as [|y front].
  - exists "". simpl app. now rewrite concat_cons.
  - destruct (joinedAfter_app_cons front x rest) as [between Hbetween].
    exists (y ++ between).
    change ((y :: front) ++ x :: rest)%list with (y :: (front ++ x :: rest))%list.
    rewrite concat_cons, Hbetween. now rewrite !append_assoc.
Qed.

Lemma length_flat_map_rev {A B : Type} (f : A -> list B) (l : list A) :
  length (flat_map f (rev l)) = length (flat_map f l).
Proof.
  induction l as [|x l IH]; [reflexivity|].
  simpl. rewrite flat_map_app, !length_app, IH. simpl. rewrite app_nil_r. lia.
Qed.

Section ChangeColumnsMore.
Context {U : Utils} {G : AbstractQueryGenerator}.

Lemma unshiftedBy_length table entry :
  length (unshiftedBy table entry)
  = (if isEnumColumn (snd entry) then 1 else 0)
    + (if isAutoIncrement (snd entry) then 1 else 0).
Proof.
  destruct entry as [columnName [columnType columnComment auto]].
  unfold unshiftedBy, isEnumColumn, isAutoIncrement. simpl.
  destruct columnType as [[enumValues|elementType|key]|];
    destruct auto as [[|]|]; reflexivity.
Qed.

Lemma pushedBy_length table entry :
  length (pushedBy table entry)
  = (if hasCommentKey (snd entry) then 1 else 0)
    + (if isEnumColumn (snd entry) then 2 else 0).
Proof.
  destruct entry as [columnName [columnType columnComment auto]].
  unfold pushedBy, isEnumColumn, hasCommentKey. simpl.
  destruct columnType as [[enumValues|elementType|key]|];
    destruct columnComment as [[text|]|]; reflexivity.
Qed.

(** X8.  [changeColumnsQuery] throws nothing but the TypeError of
    [createEnumQuery], and only for a mapping in which some column is an
    array of enums; for every other mapping it returns a batch. *)
Theorem changeColumnsQuery_throws_only_for_array_of_enum
    (tableOrModel : TableNameOrModel) (columnDefinitions : ChangeColumnDefinitions) :
  (forall e,
     Postgres.changeColumnsQuery tableOrModel columnDefinitions = Throw e ->
     e = TypeError "createEnumQuery expects an instance of the ENUM DataType"
     /\ exists columnName attribute enumValues,
          In (columnName, attribute) columnDefinitions
          /\ type (normalizeChangeColumnAttribute attribute)
             = Some (ARRAY (ENUM enumValues)))
  /\ ((forall columnName attribute enumValues,
         In (columnName, attribute) columnDefinitions ->
         type (normalizeChangeColumnAttribute attribute)
         <> Some (ARRAY (ENUM enumValues))) ->
      exists batch, Postgres.changeColumnsQuery tableOrModel columnDefinitions = Ok batch).
Proof.
  split.
  - intros e Hthrown.
    set (entries := mapValues columnDefinitions normalizeChangeColumnAttribute).
    destruct (Exists_dec (fun entry => isArrayOfEnum (snd entry) = true) entries)
      as [Hsome|Hnone].
    { intros entry. destruct (isArrayOfEnum (snd entry)); [now left | now right]. }
    + unfold Postgres.changeColumnsQuery, Postgres.changeColumnsStatements in Hthrown.
      fold entries in Hthrown.
      rewrite (changeColumns_loop_throws _ _ _ Hsome) in Hthrown. simpl in Hthrown.
      injection Hthrown as <-. split; [reflexivity|].
      apply Exists_exists in Hsome. destruct Hsome as [[columnName columnDef] [Hin Harray]].
      unfold entries, mapValues in Hin. apply in_map_iff in Hin.
      destruct Hin as [[name attribute] [Hentry Hin]]. simpl in Hentry.
      injection Hentry as -> <-. unfold isArrayOfEnum in Harray. simpl in Harray.
      destruct (type (normalizeChangeColumnAttribute attribute))
        as [[enumValues|[enumValues| |]|key]|] eqn:Htype; try discriminate.
      exists columnName, attribute, enumValues. now split.
    + exfalso. apply Forall_Exists_neg in Hnone.
      assert (Hplain : Forall (fun entry => isArrayOfEnum (snd entry) = false) entries).
      { eapply Forall_impl; [|exact Hnone]. intros entry Hentry. simpl in Hentry.
        destruct (isArrayOfEnum (snd entry)); [now elim Hentry | reflexivity]. }
      unfold Postgres.changeColumnsQuery, Postgres.changeColumnsStatements in Hthrown.
      fold entries in Hthrown.
      rewrite (changeColumns_loop_shape _ _ _ Hplain) in Hthrown. discriminate.
  - intros Hplain. unfold Postgres.changeColumnsQuery.
    rewrite (changeColumnsStatements_shape tableOrModel columnDefinitions Hplain).
    simpl. eauto.
Qed.

(** X9.  For a mapping without arrays of enums, [changeColumnsQuery] joins
    one statement for the ALTER TABLE statement unless it is empty, one for
    each column with the [comment] key, one for each auto-increment column
    and three for each enum column. *)
Theorem changeColumnsStatements_count
    (tableOrModel : TableNameOrModel) (columnDefinitions : ChangeColumnDefinitions) :
  (forall columnName attribute enumValues,
     In (columnName, attribute) columnDefinitions ->
     type (normalizeChangeColumnAttribute attribute) <> Some (ARRAY (ENUM enumValues))) ->
  exists out,
    Postgres.changeColumnsStatements tableOrModel columnDefinitions = Ok out
    /\ Postgres.changeColumnsQuery tableOrModel columnDefinitions
       = Ok (String.concat " " out)
    /\ length out
       = (if abstractChangeColumnsQuery tableOrModel columnDefinitions =? "" then 0 else 1)
         + countColumns hasCommentKey columnDefinitions
         + countColumns isAutoIncrement columnDefinitions
         + 3 * countColumns isEnumColumn columnDefinitions.
Proof.
  intros Hplain. eexists. split; [|split].
  - apply (changeColumnsStatements_shape tableOrModel columnDefinitions Hplain).
  - unfold Postgres.changeColumnsQuery.
    now rewrite (changeColumnsStatements_shape tableOrModel columnDefinitions Hplain).
  - rewrite !length_app, length_flat_map_rev.
    set (table := extractTableDetails tableOrModel).
    assert (Hsum :
      length (flat_map (unshiftedBy table)
                (mapValues columnDefinitions normalizeChangeColumnAttribute))
      + length (flat_map (pushedBy table)
                  (mapValues columnDefinitions normalizeChangeColumnAttribute))
      = countColumns hasCommentKey columnDefinitions
        + countColumns isAutoIncrement columnDefinitions
        + 3 * countColumns isEnumColumn columnDefinitions).
    { unfold countColumns, mapValues. clear Hplain.
      induction columnDefinitions as [|[columnName attribute] rest IH]; [reflexivity|].
      simpl. rewrite !length_app, unshiftedBy_length, pushedBy_length. simpl.
      destruct (hasCommentKey (normalizeChangeColumnAttribute attribute));
        destruct (isAutoIncrement (normalizeChangeColumnAttribute attribute));
        destruct (isEnumColumn (normalizeChangeColumnAttribute attribute));
        simpl; lia. }
    destruct (abstractChangeColumnsQuery tableOrModel columnDefinitions =? "");
      simpl; lia.
Qed.

(** X10.  An empty mapping gives the statement of the inherited
    [changeColumnsQuery] and nothing else. *)
Theorem changeColumnsQuery_empty_mapping (tableOrModel : TableNameOrModel) :
  Postgres.changeColumnsQuery tableOrModel []
  = Ok (abstractChangeColumnsQuery tableOrModel []).
Proof.
  unfold Postgres.changeColumnsQuery, Postgres.changeColumnsStatements. simpl.
  destruct (String.eqb_spec (abstractChangeColumnsQuery tableOrModel []) "") as [Hempty|_].
  - simpl. now rewrite Hempty.
  - reflexivity.
Qed.

End ChangeColumnsMore.

Section ChangeColumnsOrder.
Context {U : Utils} {G : AbstractQueryGenerator}.

Lemma unshiftedBy_ends_with_sequence table columnName columnDef :
  autoIncrement columnDef = Some true ->
  exists creation,
    unshiftedBy table (columnName, columnDef)
    = (creation ++ [Postgres.createSequence table columnName])%list.
Proof.
  intros Hauto. unfold unshiftedBy. simpl. rewrite Hauto. eauto.
Qed.

Lemma pushedBy_starts_with_comment table columnName columnDef text :
  comment columnDef = Some text ->
  exists replacement,
    pushedBy table (columnName, columnDef)
    = (Postgres.commentOnColumn table columnName
         match text with
         | Some words => escape (JStr words)
         | None => "NULL"
         end :: replacement)%list.
Proof.
  intros Hcomment. unfold pushedBy. simpl. rewrite Hcomment.
  destruct text as [words|]; simpl; eauto.
Qed.

(** X11.  Of two columns of a mapping without arrays of enums, the sequence
    of the later column is created before the sequence of the earlier one,
    while their comments keep the order of the columns: what is put in front
    of the ALTER TABLE statement runs against the order of the mapping, what
    is put behind it runs along. *)
Theorem changeColumnsStatements_column_order
    (tableOrModel : TableNameOrModel)
    (earlier between later : ChangeColumnDefinitions)
    (firstName secondName : string) (firstAttribute secondAttribute : ChangeColumnAttribute) :
  let columnDefinitions :=
    (earlier ++ (firstName, firstAttribute)
       :: between ++ (secondName, secondAttribute) :: later)%list in
  let table := extractTableDetails tableOrModel in
  let sql := abstractChangeColumnsQuery tableOrModel columnDefinitions in
  (forall columnName attribute enumValues,
     In (columnName, attribute) columnDefinitions ->
     type (normalizeChangeColumnAttribute attribute) <> Some (ARRAY (ENUM enumValues))) ->
  exists before after,
    Postgres.changeColumnsStatements tableOrModel columnDefinitions
    = Ok (before ++ (if sql =? "" then [] else [sql]) ++ after)%list
    /\ (autoIncrement (normalizeChangeColumnAttribute firstAttribute) = Some true ->
        autoIncrement (normalizeChangeColumnAttribute secondAttribute) = Some true ->
        exists l1 l2 l3,
          before = (l1 ++ Postgres.createSequence table secondName
                      :: l2 ++ Postgres.createSequence table firstName :: l3)%list)
    /\ (forall firstText secondText,
          comment (normalizeChangeColumnAttribute firstAttribute) = Some firstText ->
          comment (normalizeChangeColumnAttribute secondAttribute) = Some secondText ->
          exists l1 l2 l3,
            after
            = (l1 ++ Postgres.commentOnColumn table firstName
                       match firstText with
                       | Some words => escape (JStr words)
                       | None => "NULL"
                       end
                 :: l2 ++ Postgres.commentOnColumn table secondName
                            match secondText with
                            | Some words => escape (JStr words)
                            | None => "NULL"
                            end
                 :: l3)%list).
Proof.
  intros columnDefinitions table sql Hplain.
  set (norm := fun kv : string * ChangeColumnAttribute =>
                 (fst kv, normalizeChangeColumnAttribute (snd kv))).
  assert (Hentries :
    mapValues columnDefinitions normalizeChangeColumnAttribute
    = (map norm earlier
         ++ (firstName, normalizeChangeColumnAttribute firstAttribute)
         :: map norm between
         ++ (secondName, normalizeChangeColumnAttribute secondAttribute)
         :: map norm later)%list).
  { unfold columnDefinitions, mapValues. fold norm.
    rewrite map_app. simpl. rewrite map_app. reflexivity. }
  assert (Hreversed :
    rev (mapValues columnDefinitions normalizeChangeColumnAttribute)
    = (rev (map norm later)
         ++ (secondName, normalizeChangeColumnAttribute secondAttribute)
         :: rev (map norm between)
         ++ (firstName, normalizeChangeColumnAttribute firstAttribute)
         :: rev (map norm earlier))%list).
  { rewrite Hentries, rev_app_distr. simpl. rewrite rev_app_distr. simpl.
    rewrite <- !app_assoc. reflexivity. }
  exists (flat_map (unshiftedBy table)
            (rev (mapValues columnDefinitions normalizeChangeColumnAttribute))),
         (flat_map (pushedBy table)
            (mapValues columnDefinitions normalizeChangeColumnAttribute)).
  split; [|split].
  - apply (changeColumnsStatements_shape tableOrModel columnDefinitions Hplain).
  - intros Hfirst Hsecond. rewrite Hreversed.
    destruct (unshiftedBy_ends_with_sequence table firstName _ Hfirst)
      as [firstCreation HfirstShape].
    destruct (unshiftedBy_ends_with_sequence table secondName _ Hsecond)
      as [secondCreation HsecondShape].
    exists (flat_map (unshiftedBy table) (rev (map norm later)) ++ secondCreation)%list,
           (flat_map (unshiftedBy table) (rev (map norm between)) ++ firstCreation)%list,
           (flat_map (unshiftedBy table) (rev (map norm earlier))).
    rewrite flat_map_app. simpl flat_map. rewrite flat_map_app. simpl flat_map.
    rewrite HfirstShape, HsecondShape, <- !app_assoc. reflexivity.
  - intros firstText secondText Hfirst Hsecond. rewrite Hentries.
    destruct (pushedBy_starts_with_comment table firstName _ firstText Hfirst)
      as [firstReplacement HfirstShape].
    destruct (pushedBy_starts_with_comment table secondName _ secondText Hsecond)
      as [secondReplacement HsecondShape].
    exists (flat_map (pushedBy table) (map norm earlier)),
           (firstReplacement ++ flat_map (pushedBy table) (map norm between))%list,
           (secondReplacement ++ flat_map (pushedBy table) (map norm later))%list.
    rewrite flat_map_app. simpl flat_map. rewrite flat_map_app. simpl flat_map.
    rewrite HfirstShape, HsecondShape, <- !app_assoc. reflexivity.
Qed.

(** X12.  For an enum column of a mapping without arrays of enums, the
    string returned by [changeColumnsQuery] contains, in this order, the
    statement creating the enum, the ALTER TABLE statement, DROP TYPE IF
    EXISTS of the enum's name and ALTER TYPE ... RENAME TO that name; the
    last two are next to each other, two spaces apart. *)
Theorem changeColumnsQuery_enum_text_in_order
    (tableOrModel : TableNameOrModel) (columnDefinitions : ChangeColumnDefinitions)
    (columnName : string) (attribute : ChangeColumnAttribute)
    (enumValues : list string) :
  (forall c a vs, In (c, a) columnDefinitions ->
     type (normalizeChangeColumnAttribute a) <> Some (ARRAY (ENUM vs))) ->
  In (columnName, attribute) columnDefinitions ->
  type (normalizeChangeColumnAttribute attribute) = Some (ENUM enumValues) ->
  let table := extractTableDetails tableOrModel in
  let enumName := generateEnumName (tableName table) columnName false in
  exists created s0 s1 s2 s3,
    Postgres.createEnumQuery (TableObject table) (ENUM enumValues) None = Ok created
    /\ Postgres.changeColumnsQuery tableOrModel columnDefinitions
       = Ok (s0 ++ created
               ++ s1 ++ abstractChangeColumnsQuery tableOrModel columnDefinitions
               ++ s2 ++ ("DROP TYPE IF EXISTS " ++ quoteIdentifier (schema table) ++ "."
                           ++ quoteIdentifier enumName ++ ";")
               ++ "  "
               ++ ("ALTER TYPE " ++ quoteIdentifier (schema table) ++ "."
                     ++ quoteIdentifier (generateEnumName (tableName table) columnName true)
                     ++ " RENAME TO " ++ quoteIdentifier enumName ++ ";")
               ++ s3).
Proof.
  intros Hplain Hin Htype table enumName.
  destruct (changeColumnsQuery_enum_statements_in_order
              tableOrModel columnDefinitions columnName attribute enumValues
              Hplain Hin Htype)
    as [created [l1 [l2 [l3 [l4 [Hcreated Hstatements]]]]]].
  fold table in Hcreated, Hstatements. fold enumName in Hstatements.
  set (sql := abstractChangeColumnsQuery tableOrModel columnDefinitions) in *.
  set (dropped := Postgres.dropEnumQuery (schema table) (ByName enumName)) in *.
  set (renamed := ("ALTER TYPE " ++ quoteIdentifier (schema table) ++ "."
                     ++ quoteIdentifier (generateEnumName (tableName table) columnName true)
                     ++ " RENAME TO " ++ quoteIdentifier enumName ++ ";")) in *.
  assert (Hdropped : dropped
                     = ("DROP TYPE IF EXISTS " ++ quoteIdentifier (schema table) ++ "."
                          ++ quoteIdentifier enumName ++ ";") ++ " ").
  { unfold dropped, Postgres.dropEnumQuery. now rewrite !append_assoc. }
  exists created. unfold Postgres.changeColumnsQuery. rewrite Hstatements. simpl bind.
  change (l1 ++ [created] ++ l2 ++ (if sql =? "" then [] else [sql]) ++ l3
             ++ [dropped; renamed] ++ l4)%list
    with (l1 ++ created :: (l2 ++ (if sql =? "" then [] else [sql]) ++ l3
             ++ dropped :: renamed :: l4))%list.
  destruct (concat_app_cons l1 created
              (l2 ++ (if sql =? "" then [] else [sql]) ++ l3 ++ dropped :: renamed :: l4))
    as [s0 Hs0].
  rewrite Hs0. exists s0.
  assert (Htail : forall front,
    exists gap,
      joinedAfter (front ++ dropped :: renamed :: l4)
      = gap ++ dropped ++ " " ++ renamed ++ joinedAfter l4).
  { intros front. destruct (joinedAfter_app_cons front dropped (renamed :: l4))
      as [gap Hgap].
    exists gap. rewrite Hgap. unfold joinedAfter at 1. now rewrite concat_cons. }
  destruct (String.eqb_spec sql "") as [Hempty|Hsql].
  - destruct (Htail (l2 ++ [] ++ l3)%list) as [gap Hgap].
    exists "", gap, (joinedAfter l4). split; [exact Hcreated|].
    rewrite <- !app_assoc in Hgap. simpl app in Hgap. simpl app. rewrite Hgap.
    rewrite Hempty, Hdropped. simpl. now rewrite !append_assoc.
  - destruct (joinedAfter_app_cons l2 sql (l3 ++ dropped :: renamed :: l4))
      as [s1 Hs1].
    destruct (Htail l3) as [s2 Hs2].
    exists s1, s2, (joinedAfter l4). split; [exact Hcreated|].
    simpl app. rewrite Hs1, Hs2, Hdropped. now rewrite !append_assoc.
Qed.

(** X13.  A single enum column with a comment and the auto-increment flag
    gives six statements in this order: the enum creation, the sequence
    creation, the ALTER TABLE statement, the comment, the removal of the old
    enum, the renaming of the new one.  The enum creation comes first though
    it is put in front last. *)
Theorem changeColumnsStatements_single_column
    (tableOrModel : TableNameOrModel) (columnName : string)
    (attribute : ChangeColumnAttribute) (enumValues : list string) (text : string) :
  type (normalizeChangeColumnAttribute attribute) = Some (ENUM enumValues) ->
  comment (normalizeChangeColumnAttribute attribute) = Some (Some text) ->
  autoIncrement (normalizeChangeColumnAttribute attribute) = Some true ->
  abstractChangeColumnsQuery tableOrModel [(columnName, attribute)] <> "" ->
  let table := extractTableDetails tableOrModel in
  exists created,
    Postgres.createEnumQuery (TableObject table) (ENUM enumValues) None = Ok created
    /\ Postgres.changeColumnsStatements tableOrModel [(columnName, attribute)]
       = Ok [ created;
              Postgres.createSequence table columnName;
              abstractChangeColumnsQuery tableOrModel [(columnName, attribute)];
              Postgres.commentOnColumn table columnName (escape (JStr text));
              Postgres.dropEnumQuery (schema table)
                (ByName (generateEnumName (tableName table) columnName false));
              Postgres.renameEnum table columnName ].
Proof.
  intros Htype Hcomment Hauto Hsql table.
  eexists. split; [reflexivity|].
  unfold Postgres.changeColumnsStatements. fold table. simpl.
  apply String.eqb_neq in Hsql. rewrite Hsql.
  unfold Postgres.changeColumn. rewrite Htype, Hcomment, Hauto. reflexivity.
Qed.

End ChangeColumnsOrder.

Lemma changeColumnsQuery_throws_only_for_array_of_enum_witness :
  exists batch,
    Postgres.changeColumnsQuery (U := Fixture.utils) (G := Fixture.postgres)
      (TableName "users")
      [ ("id", AttrDefinition (mkColumn None None (Some true)));
        ("status", AttrDataType (ENUM ["on"; "off"])) ]
    = Ok batch.
Proof.
  apply (proj2 (changeColumnsQuery_throws_only_for_array_of_enum
                  (U := Fixture.utils) (G := Fixture.postgres) (TableName "users")
                  [ ("id", AttrDefinition (mkColumn None None (Some true)));
                    ("status", AttrDataType (ENUM ["on"; "off"])) ])).
  intros c a vs [Hentry|[Hentry|[]]]; inversion Hentry; subst; discriminate.
Defined.

Lemma changeColumnsStatements_count_witness :
  (exists out,
     Postgres.changeColumnsStatements (U := Fixture.utils) (G := Fixture.postgres)
       (TableName "users")
       [ ("id", AttrDefinition (mkColumn None (Some None) (Some true)));
         ("status", AttrDataType (ENUM ["on"; "off"])) ]
     = Ok out
     /\ length out = 6)
  /\ (exists out,
        Postgres.changeColumnsStatements (U := Fixture.utils) (G := silentGenerator)
          (TableName "users")
          [("id", AttrDefinition (mkColumn None (Some None) (Some true)))]
        = Ok out
        /\ length out = 2).
Proof.
  split.
  - destruct (changeColumnsStatements_count
                (U := Fixture.utils) (G := Fixture.postgres) (TableName "users")
                [ ("id", AttrDefinition (mkColumn None (Some None) (Some true)));
                  ("status", AttrDataType (ENUM ["on"; "off"])) ])
      as [out [Hout [_ Hlength]]].
    + intros c a vs [Hentry|[Hentry|[]]]; inversion Hentry; subst; discriminate.
    + exists out. split; [exact Hout | exact Hlength].
  - destruct (changeColumnsStatements_count
                (U := Fixture.utils) (G := silentGenerator) (TableName "users")
                [("id", AttrDefinition (mkColumn None (Some None) (Some true)))])
      as [out [Hout [_ Hlength]]].
    + intros c a vs [Hentry|[]]; inversion Hentry; subst; discriminate.
    + exists out. split; [exact Hout | exact Hlength].
Defined.

Lemma changeColumnsStatements_column_order_witness :
  exists before after l1 l2 l3 m1 m2 m3,
    Postgres.changeColumnsStatements (U := Fixture.utils) (G := Fixture.postgres)
      (TableName "users")
      [ ("id", AttrDefinition (mkColumn None (Some None) (Some true)));
        ("rank", AttrDefinition (mkColumn None (Some (Some "order")) (Some true))) ]
    = Ok (before
            ++ [Fixture.alterTable (TableName "users")
                  [ ("id", AttrDefinition (mkColumn None (Some None) (Some true)));
                    ("rank", AttrDefinition
                               (mkColumn None (Some (Some "order")) (Some true))) ]]
            ++ after)%list
    /\ before
       = (l1 ++ Postgres.createSequence (U := Fixture.utils) (G := Fixture.postgres)
                  (mkTable "users" "public") "rank"
            :: l2 ++ Postgres.createSequence (U := Fixture.utils) (G := Fixture.postgres)
                       (mkTable "users" "public") "id"
            :: l3)%list
    /\ after
       = (m1 ++ Postgres.commentOnColumn (G := Fixture.postgres)
                  (mkTable "users" "public") "id" "NULL"
            :: m2 ++ Postgres.commentOnColumn (G := Fixture.postgres)
                       (mkTable "users" "public") "rank" "'order'"
            :: m3)%list.
Proof.
  destruct (changeColumnsStatements_column_order
              (U := Fixture.utils) (G := Fixture.postgres) (TableName "users")
              [] [] [] "id" "rank"
              (AttrDefinition (mkColumn None (Some None) (Some true)))
              (AttrDefinition (mkColumn None (Some (Some "order")) (Some true))))
    as [before [after [Hstatements [Hsequences Hcomments]]]].
  - intros c a vs [Hentry|[Hentry|[]]]; inversion Hentry; subst; discriminate.
  - destruct (Hsequences eq_refl eq_refl) as [l1 [l2 [l3 Hbefore]]].
    destruct (Hcomments None (Some "order") eq_refl eq_refl) as [m1 [m2 [m3 Hafter]]].
    exists before, after, l1, l2, l3, m1, m2, m3.
    split; [exact Hstatements | split; [exact Hbefore | exact Hafter]].
Defined.

Lemma changeColumnsQuery_enum_text_in_order_witness :
  exists created s0 s1 s2 s3,
    Postgres.createEnumQuery (G := Fixture.postgres)
      (TableObject (mkTable "users" "public")) (ENUM ["on"; "off"]) None = Ok created
    /\ Postgres.changeColumnsQuery (U := Fixture.utils) (G := Fixture.postgres)
         (TableName "users") [("status", AttrDataType (ENUM ["on"; "off"]))]
       = Ok (s0 ++ created ++ s1
               ++ Fixture.alterTable (TableName "users")
                    [("status", AttrDataType (ENUM ["on"; "off"]))]
               ++ s2
               ++ ("DROP TYPE IF EXISTS " ++ Fixture.quoteName "public" ++ "."
                     ++ Fixture.quoteName "enum_users_status" ++ ";")
               ++ "  "
               ++ ("ALTER TYPE " ++ Fixture.quoteName "public" ++ "."
                     ++ Fixture.quoteName "tmp_enum_users_status" ++ " RENAME TO "
                     ++ Fixture.quoteName "enum_users_status" ++ ";")
               ++ s3).
Proof.
  apply (changeColumnsQuery_enum_text_in_order
           (U := Fixture.utils) (G := Fixture.postgres) (TableName "users")
           [("status", AttrDataType (ENUM ["on"; "off"]))]
           "status" (AttrDataType (ENUM ["on"; "off"])) ["on"; "off"]).
  - intros c a vs [Hentry|[]]. inversion Hentry; subst. discriminate.
  - now left.
  - reflexivity.
Defined.

Lemma changeColumnsStatements_single_column_witness :
  exists created,
    Postgres.createEnumQuery (G := Fixture.postgres)
      (TableObject (mkTable "users" "public")) (ENUM ["on"; "off"]) None = Ok created
    /\ Postgres.changeColumnsStatements (U := Fixture.utils) (G := Fixture.postgres)
         (TableName "users")
         [("status", AttrDefinition
                       (mkColumn (Some (ENUM ["on"; "off"])) (Some (Some "state"))
                          (Some true)))]
       = Ok [ created;
              Postgres.createSequence (U := Fixture.utils) (G := Fixture.postgres)
                (mkTable "users" "public") "status";
              Fixture.alterTable (TableName "users")
                [("status", AttrDefinition
                              (mkColumn (Some (ENUM ["on"; "off"])) (Some (Some "state"))
                                 (Some true)))];
              Postgres.commentOnColumn (G := Fixture.postgres)
                (mkTable "users" "public") "status" "'state'";
              Postgres.dropEnumQuery (G := Fixture.postgres) "public"
                (ByName "enum_users_status");
              Postgres.renameEnum (U := Fixture.utils) (G := Fixture.postgres)
                (mkTable "users" "public") "status" ].
Proof.
  apply (changeColumnsStatements_single_column
           (U := Fixture.utils) (G := Fixture.postgres) (TableName "users") "status"
           (AttrDefinition
              (mkColumn (Some (ENUM ["on"; "off"])) (Some (Some "state")) (Some true)))
           ["on"; "off"] "state");
    try reflexivity.
  discriminate.
Defined.
